(** * Heart-Disease-Risk-Assessment: the scoring path of [app.py]

    A shallow embedding of the part of [src/app.py] that turns the form's
    values into a feature row, scores it with the pickled scaler and
    classifier, and maps the probability to a risk tier, together with the
    feature list of [src/src/train_model.py].

    Numbers are modelled as the program has them: the number inputs return
    Python [int]s ([Z]); [BMI], the feature array and the probability are
    IEEE 754 binary64 values, for which the primitive [float] of the
    Standard Library is used (same format, same rounding to nearest even). *)

From Stdlib Require Import ZArith QArith Qabs Lia List String Bool Floats.
Import ListNotations.

#[local] Open Scope Z_scope.

(** ** Python values and exceptions *)

Module Py.

(** The exceptions the scoring path can meet.  [ZeroDivisionError] is what
    Python's [/] raises on a zero divisor; [ValueError] is what the
    scikit-learn estimators raise on an input they refuse. *)
Inductive exn : Set :=
| ZeroDivisionError
| ValueError.

(** A computation that returns or raises. *)
Inductive result (A : Type) : Type :=
| Ok (a : A)
| Raise (e : exn).
Arguments Ok {A} a.
Arguments Raise {A} e.

Definition bind {A B : Type} (c : result A) (k : A -> result B) : result B :=
  match c with
  | Ok a => k a
  | Raise e => Raise e
  end.

Definition raises {A : Type} (c : result A) : bool :=
  match c with
  | Ok _ => false
  | Raise _ => true
  end.

(** [float(n)] for a Python [int]: the nearest binary64 value (exact for
    [|n| < 2^53], which covers every value the form can hold).  Beyond the
    binary64 range Python raises [OverflowError]; no input of the form comes
    near it, and nothing below is stated for such integers. *)
Definition float_of_int (n : Z) : float :=
  SF2Prim (binary_normalize prec emax n 0 false).

(** [a / b] on two [int]s: true division.  For operands below [2^53] in
    magnitude the quotient of the converted operands is the correctly
    rounded quotient Python returns. *)
Definition int_truediv (a b : Z) : result float :=
  if b =? 0 then Raise ZeroDivisionError
  else Ok (float_of_int a / float_of_int b)%float.

(** [x ** 2] on a [float]: the square, taken as the correctly rounded
    product [x * x].  It is used for the heights of the form only. *)
Definition float_sqr (x : float) : float := (x * x)%float.

(** [a / y] with an [int] on the left and a [float] on the right: the [int]
    is converted, and a zero divisor (of either sign) raises. *)
Definition int_div_float (a : Z) (y : float) : result float :=
  if (y =? 0)%float then Raise ZeroDivisionError
  else Ok (float_of_int a / y)%float.

End Py.

Import Py.

Notation "x <- c ;; k" := (bind c (fun x => k))
  (at level 61, c at next level, right associativity).

(** ** The form (lines 333-414 of app.py) *)

(** [st.number_input(min_value, max_value, value)]: the widget returns its
    default until the user enters something, and what it returns always lies
    between its bounds. *)
Definition number_input (min_value max_value value : Z) (entry : option Z) : Z :=
  match entry with
  | None => value
  | Some v => Z.max min_value (Z.min max_value v)
  end.

(** The cigarettes input (lines 359-375): one widget per answer to
    "Current Smoker?", each with its own key and so its own entry. *)
Definition cigs_widget (currentSmoker : string)
    (cigs_smoker cigs_non_smoker : option Z) : Z :=
  if (currentSmoker =? "Yes")%string
  then number_input 0 100 1 cigs_smoker
  else number_input 0 100 0 cigs_non_smoker.

(** The values of the widgets when the script reaches line 414. *)
Record Form : Type := {
  age : Z;
  male : string;
  height : Z;
  weight : Z;
  currentSmoker : string;
  cigsPerDay : Z;
  exercise_frequency : string;
  family_history : string;
  totChol : Z;
  sysBP : Z;
  diaBP : Z;
  heartRate : Z;
  glucose : Z;
  diabetes : string;
  prevalentHyp : string;
  medications : list string
}.

(** The bounds the number inputs put on their values. *)
Definition in_widget_ranges (f : Form) : Prop :=
  1 <= age f <= 120 /\ 100 <= height f <= 250 /\ 30 <= weight f <= 300 /\
  0 <= cigsPerDay f <= 100 /\ 100 <= totChol f <= 400 /\
  80 <= sysBP f <= 250 /\ 60 <= diaBP f <= 200 /\
  40 <= heartRate f <= 200 /\ 50 <= glucose f <= 400.

(** Line 351: [BMI = weight / ((height/100) ** 2)]. *)
Definition BMI (height weight : Z) : result float :=
  h <- int_truediv height 100 ;;
  int_div_float weight (float_sqr h).

(** ** Risk tiers *)

Inductive Tier : Set := Low | Moderate | High.

Definition tier_rank (t : Tier) : nat :=
  match t with
  | Low => 0
  | Moderate => 1
  | High => 2
  end.

(** Lines 507-533, the result display: [if prob < 20 ... elif prob < 50 ...
    else ...]. *)
Definition display_tier (prob : float) : Tier :=
  if (prob <? 20)%float then Low
  else if (prob <? 50)%float then Moderate
  else High.

(** Line 440, the history entry:
    ['High' if prob > 50 else 'Moderate' if prob > 20 else 'Low']. *)
Definition history_tier (prob : float) : Tier :=
  if (50 <? prob)%float then High
  else if (20 <? prob)%float then Moderate
  else Low.

(** The label each path writes for a tier. *)
Definition display_label (t : Tier) : string :=
  match t with
  | Low => "Low Risk"
  | Moderate => "Moderate Risk"
  | High => "High Risk"
  end.

Definition history_label (t : Tier) : string :=
  match t with
  | Low => "Low"
  | Moderate => "Moderate"
  | High => "High"
  end.

(** Lines 548 and 558: the two other readings of [prob] on the result page;
    [np.mean([20, 50])] is [35.0]. *)
Definition relative_risk (prob : float) : string :=
  if (35 <? prob)%float then "High" else "Average".

Definition confidence (prob : float) : string :=
  if (20 <? abs (prob - 50))%float then "High" else "Moderate".

Definition risk_color (t : Tier) : string :=
  match t with
  | Low => "#96ceb4"
  | Moderate => "#ffeaa7"
  | High => "#fab1a0"
  end.

Definition recommendations (t : Tier) : list string :=
  match t with
  | Low =>
      [ "Continue maintaining healthy lifestyle habits";
        "Regular exercise and balanced diet";
        "Annual health check-ups" ]%string
  | Moderate =>
      [ "Consider lifestyle modifications";
        "Monitor blood pressure and cholesterol regularly";
        "Discuss prevention strategies with your doctor" ]%string
  | High =>
      [ "Immediate medical consultation recommended";
        "Consider medication if advised by physician";
        "Urgent lifestyle changes needed" ]%string
  end.

(** ** The pickled artifacts *)

(** [app.py] only calls methods on the two objects it unpickles: the scaler's
    [transform], the model's [predict] and [predict_proba].  Each may raise. *)
Class Scaler (S : Type) : Type := {
  transform : S -> list float -> result (list float)
}.

(** [predict] returns the class label of the row, [predict_proba] the row of
    class probabilities [(P(class 0), P(class 1))]. *)
Class Classifier (M : Type) : Type := {
  predict : M -> list float -> result Z;
  predict_proba : M -> list float -> result (float * float)
}.

(** The scaler [train_model.py] fits and saves is scikit-learn's
    [StandardScaler] (lines 30-31 and 54): a vector of means and a vector of
    scales.  Its [transform] refuses a row of the wrong width or with an
    infinite entry, then computes [(x - mean_) / scale_] entry by entry in
    NumPy arithmetic, where a division by zero raises nothing and yields an
    infinity or a NaN. *)
Record StandardScaler : Type := {
  mean_ : list float;
  scale_ : list float
}.

Definition standardize (x mean scale : float) : float :=
  ((x - mean) / scale)%float.

Fixpoint standardize_row (X means scales : list float) : list float :=
  match X, means, scales with
  | x :: X', m :: means', s :: scales' =>
      standardize x m s :: standardize_row X' means' scales'
  | _, _, _ => []
  end.

Definition StandardScaler_transform (sc : StandardScaler) (X : list float)
  : result (list float) :=
  if negb (Nat.eqb (List.length X) (List.length (mean_ sc)))
     || negb (Nat.eqb (List.length X) (List.length (scale_ sc)))
     || existsb is_infinity X
  then Raise ValueError
  else Ok (standardize_row X (mean_ sc) (scale_ sc)).

#[export] Instance StandardScaler_Scaler : Scaler StandardScaler := {
  transform := StandardScaler_transform
}.

(** ** Training side (src/train_model.py, lines 18-21) *)

Definition FEATURES : list string :=
  [ "age"; "male"; "currentSmoker"; "cigsPerDay"; "totChol"; "sysBP";
    "diaBP"; "BMI"; "heartRate"; "glucose"; "diabetes"; "prevalentHyp" ]%string.

(** ** Submission (lines 417-433) *)

Definition male_val (f : Form) : Z :=
  if (male f =? "Male")%string then 1 else 0.
Definition currentSmoker_val (f : Form) : Z :=
  if (currentSmoker f =? "Yes")%string then 1 else 0.
Definition diabetes_val (f : Form) : Z :=
  if (diabetes f =? "Yes")%string then 1 else 0.
Definition prevalentHyp_val (f : Form) : Z :=
  if (prevalentHyp f =? "Yes")%string then 1 else 0.

(** Lines 425-427: the single row of the input array.  [np.array] converts
    the [int]s to binary64 next to the [float] [BMI]. *)
Definition X (f : Form) (bmi : float) : list float :=
  [ float_of_int (age f); float_of_int (male_val f);
    float_of_int (currentSmoker_val f); float_of_int (cigsPerDay f);
    float_of_int (totChol f); float_of_int (sysBP f);
    float_of_int (diaBP f); bmi; float_of_int (heartRate f);
    float_of_int (glucose f); float_of_int (diabetes_val f);
    float_of_int (prevalentHyp_val f) ].

(** What a column of the training table holds, read off the form: the
    Framingham column names of [FEATURES] on the left, the variables of
    [app.py] on the right. *)
Definition column_value (f : Form) (bmi : float) (name : string) : option float :=
  if (name =? "age")%string then Some (float_of_int (age f))
  else if (name =? "male")%string then Some (float_of_int (male_val f))
  else if (name =? "currentSmoker")%string
    then Some (float_of_int (currentSmoker_val f))
  else if (name =? "cigsPerDay")%string then Some (float_of_int (cigsPerDay f))
  else if (name =? "totChol")%string then Some (float_of_int (totChol f))
  else if (name =? "sysBP")%string then Some (float_of_int (sysBP f))
  else if (name =? "diaBP")%string then Some (float_of_int (diaBP f))
  else if (name =? "BMI")%string then Some bmi
  else if (name =? "heartRate")%string then Some (float_of_int (heartRate f))
  else if (name =? "glucose")%string then Some (float_of_int (glucose f))
  else if (name =? "diabetes")%string then Some (float_of_int (diabetes_val f))
  else if (name =? "prevalentHyp")%string
    then Some (float_of_int (prevalentHyp_val f))
  else None.

(** Lines 351 and 425-427 together: the row built from a form. *)
Definition features (f : Form) : result (list float) :=
  bmi <- BMI (height f) (weight f) ;;
  Ok (X f bmi).

(** The feature vectors of the valid records: the rows built from the forms
    within the bounds of the inputs. *)
Definition FeatureVector (x : list float) : Prop :=
  exists f, in_widget_ranges f /\ features f = Ok x.

(** What lines 431-433 bind. *)
Record Scored : Type := {
  X_scaled : list float;
  prediction : Z;
  prob : float
}.

(** An entry of [st.session_state.prediction_history] (lines 436-441).  The
    entry stores [prob] rendered with one decimal and a percent sign; the
    model keeps the value that is rendered. *)
Record HistoryEntry : Type := {
  timestamp : string;
  entry_age : Z;
  risk_percentage : float;
  risk_level : string
}.

(** What the result page shows (lines 443-570). *)
Record Report : Type := {
  shown_prob : float;
  shown_risk_level : string;
  shown_risk_color : string;
  shown_recommendations : list string;
  shown_relative_risk : string;
  shown_confidence : string
}.

(** Lines 436-570, from the scored probability on: the new history and the
    result page. *)
Definition report (now : string) (f : Form) (history : list HistoryEntry)
    (p : float) : list HistoryEntry * Report :=
  (history ++ [ {| timestamp := now; entry_age := age f;
                   risk_percentage := p;
                   risk_level := history_label (history_tier p) |} ],
   {| shown_prob := p;
      shown_risk_level := display_label (display_tier p);
      shown_risk_color := risk_color (display_tier p);
      shown_recommendations := recommendations (display_tier p);
      shown_relative_risk := relative_risk p;
      shown_confidence := confidence p |}).

Section Submission.

Context {S M : Type} `{Scaler S} `{Classifier M}.
Variable scaler : S.
Variable model : M.

(** Lines 431-433. *)
Definition score (x : list float) : result Scored :=
  xs <- transform scaler x ;;
  label <- predict model xs ;;
  row <- predict_proba model xs ;;
  Ok {| X_scaled := xs; prediction := label; prob := (snd row * 100)%float |}.

(** One run of the script with the submit button pressed: line 351, then
    lines 417-570. *)
Definition submit (now : string) (f : Form) (history : list HistoryEntry)
  : result (list HistoryEntry * Report) :=
  x <- features f ;;
  s <- score x ;;
  Ok (report now f history (prob s)).

(** The contract of the artifacts (spec, section 6), for the pair: on the
    feature vector of every valid record the scaler answers, and on its
    answer the model gives a label and a class-1 probability between 0 and
    1.  Nothing is asked on any other row. *)
Definition valid_artifacts : Prop :=
  forall x, FeatureVector x ->
    exists xs, transform scaler x = Ok xs /\
      (exists label, predict model xs = Ok label) /\
      (exists p0 p1, predict_proba model xs = Ok (p0, p1) /\
         (0 <=? p1)%float = true /\ (p1 <=? 1)%float = true).

End Submission.

(** Two results of [predict] that differ at most in the label returned. *)
Definition same_but_label (r1 r2 : result Z) : Prop :=
  match r1, r2 with
  | Ok _, Ok _ => True
  | Raise e1, Raise e2 => e1 = e2
  | _, _ => False
  end.

(** ** Artifacts and forms used as concrete inputs *)

(** An estimator that answers the same label and the same probabilities for
    every row. *)
Record FixedClassifier : Type := {
  fixed_label : Z;
  fixed_proba : float * float
}.

#[export] Instance FixedClassifier_Classifier : Classifier FixedClassifier := {
  predict := fun m _ => Ok (fixed_label m);
  predict_proba := fun m _ => Ok (fixed_proba m)
}.

(** The default values of the widgets. *)
Definition default_form : Form := {|
  age := 50; male := "Male"; height := 170; weight := 70;
  currentSmoker := "No"; cigsPerDay := 0;
  exercise_frequency := "Sedentary"; family_history := "No";
  totChol := 200; sysBP := 120; diaBP := 80; heartRate := 70; glucose := 90;
  diabetes := "No"; prevalentHyp := "No"; medications := []
|}.

(** The default form with other answers to the three extra questions. *)
Definition default_form_extras : Form := {|
  age := 50; male := "Male"; height := 170; weight := 70;
  currentSmoker := "No"; cigsPerDay := 0;
  exercise_frequency := "Active (5+x/week)"; family_history := "Yes";
  totChol := 200; sysBP := 120; diaBP := 80; heartRate := 70; glucose := 90;
  diabetes := "No"; prevalentHyp := "No";
  medications := [ "Blood Thinners"; "Other" ]%string
|}.

(** The default form of a non-smoker who typed 20 into the cigarettes
    input. *)
Definition non_smoker_20_form : Form := {|
  age := 50; male := "Male"; height := 170; weight := 70;
  currentSmoker := "No"; cigsPerDay := cigs_widget "No" None (Some 20);
  exercise_frequency := "Sedentary"; family_history := "No";
  totChol := 200; sysBP := 120; diaBP := 80; heartRate := 70; glucose := 90;
  diabetes := "No"; prevalentHyp := "No"; medications := []
|}.

(** A scaler that leaves a 12-wide row as it is. *)
Definition unit_scaler : StandardScaler :=
  {| mean_ := repeat 0%float 12; scale_ := repeat 1%float 12 |}.

(** A scaler whose first scale is zero. *)
Definition degenerate_scaler : StandardScaler :=
  {| mean_ := repeat 0%float 12; scale_ := 0%float :: repeat 1%float 11 |}.

(** An estimator whose class-1 probability is one half. *)
Definition coin_model : FixedClassifier :=
  {| fixed_label := 0; fixed_proba := (0.5%float, 0.5%float) |}.

(** An estimator behind the input check that scikit-learn's estimators run
    before they answer (the [LogisticRegression] of train_model.py among
    them): a row that has not [n_features_in_] entries, or holds a NaN or
    an infinity, is refused with [ValueError]. *)
Record Checked (M : Type) : Type := {
  n_features_in_ : nat;
  estimator : M
}.
Arguments n_features_in_ {M} _.
Arguments estimator {M} _.

Definition finite_float (v : float) : bool :=
  negb (is_nan v || is_infinity v).

Definition check_row (n : nat) (xs : list float) : bool :=
  Nat.eqb (List.length xs) n && forallb finite_float xs.

#[export] Instance Checked_Classifier {M : Type} `{Classifier M}
  : Classifier (Checked M) := {
  predict := fun m xs =>
    if check_row (n_features_in_ m) xs then predict (estimator m) xs
    else Raise ValueError;
  predict_proba := fun m xs =>
    if check_row (n_features_in_ m) xs then predict_proba (estimator m) xs
    else Raise ValueError
}.

(** A scaler with means and scales of the size a fit on patient data
    gives, and the coin estimator behind the input check for 12 features. *)
Definition sample_scaler : StandardScaler :=
  {| mean_ := [ 49.5; 0.5; 0.5; 9; 236; 132; 83; 25.75; 76; 82;
                0.03125; 0.3125 ]%float;
     scale_ := [ 8.5; 0.5; 0.5; 12; 44; 22; 12; 4; 12; 24;
                 0.15625; 0.46875 ]%float |}.

Definition checked_coin_model : Checked FixedClassifier :=
  {| n_features_in_ := 12; estimator := coin_model |}.

(** The literals [19.999] and [49.999] as Python reads them. *)
Definition f19_999 : float := 0x1.3ffbe76c8b439p+4%float.
Definition f49_999 : float := 0x1.8ffdf3b645a1dp+5%float.

(** ** Exact values, for comparison *)

(** The rational a finite binary64 value stands for. *)
Definition Q_of_float (x : float) : option Q :=
  match Prim2SF x with
  | S754_zero _ => Some 0%Q
  | S754_finite s m e =>
      let q := (inject_Z (Zpos m) * Qpower 2 e)%Q in
      Some (if s then Qopp q else q)
  | _ => None
  end.

(** The spec's formula, [BMI = weightKg / (heightCm/100)^2], in exact
    rational arithmetic. *)
Definition BMI_exact (heightCm weightKg : Z) : Q :=
  (inject_Z weightKg / ((inject_Z heightCm / 100) * (inject_Z heightCm / 100)))%Q.

(** [BMI] returns, and what it returns is within [tol] of [BMI_exact]. *)
Definition BMI_within (tol : Q) (h w : Z) : bool :=
  match BMI h w with
  | Ok b =>
      match Q_of_float b with
      | Some q => Qle_bool (Qabs (q - BMI_exact h w)) tol
      | None => false
      end
  | Raise _ => false
  end.

(** The integers from [lo] to [hi]. *)
Definition Zrange (lo hi : Z) : list Z :=
  map (fun i => lo + Z.of_nat i) (seq 0 (Z.to_nat (hi - lo + 1))).

(** The divisor of line 351 is not zero. *)
Definition BMI_divisor_nonzero (h : Z) : bool :=
  negb (float_sqr (float_of_int h / float_of_int 100) =? 0)%float.

Definition int_is_finite (n : Z) : bool :=
  negb (is_infinity (float_of_int n)).

Definition BMI_is_finite (h w : Z) : bool :=
  match BMI h w with
  | Ok b => negb (is_infinity b)
  | Raise _ => false
  end.

(** 100.0 as sign, mantissa and exponent. *)
Definition SF100 : spec_float := S754_finite false 7036874417766400 (-46).

(** Case analysis on the comparisons inside [SFcompare]. *)
Ltac cmp_cases :=
  repeat match goal with
  | H : context [Z.compare ?a ?b] |- _ => destruct (Z.compare_spec a b)
  | |- context [Z.compare ?a ?b] => destruct (Z.compare_spec a b)
  | H : context [Pos.compare ?a ?b] |- _ => destruct (Pos.compare_spec a b)
  | |- context [Pos.compare ?a ?b] => destruct (Pos.compare_spec a b)
  end.

Ltac sf_order :=
  unfold SFleb, SFltb, SFeqb, SFcompare;
  change (Pos.compare_cont Eq) with Pos.compare;
  intros;
  repeat match goal with s : bool |- _ => destruct s end;
  cmp_cases; simpl in *; subst;
  try reflexivity; try discriminate; try lia.

(** ** The rest of the result page *)

(** Line 492, the bar drawn when Plotly is missing: its gradient is chosen
    with [prob > 50] and [prob > 20]. *)
Definition bar_gradient (prob : float) : string :=
  if (50 <? prob)%float then "linear-gradient(to right, #ff6b6b, #fab1a0)"
  else if (20 <? prob)%float then "linear-gradient(to right, #ffeaa7, #fdcb6e)"
  else "linear-gradient(to right, #00b894, #55a3ff)".

(** The gradient that goes with a tier: red for High, yellow for Moderate,
    green for Low. *)
Definition tier_gradient (t : Tier) : string :=
  match t with
  | High => "linear-gradient(to right, #ff6b6b, #fab1a0)"
  | Moderate => "linear-gradient(to right, #ffeaa7, #fdcb6e)"
  | Low => "linear-gradient(to right, #00b894, #55a3ff)"
  end.

(** Lines 575-587, the 'Risk Level' column of the risk factor table. *)
Definition age_level (age : Z) : string :=
  if age >? 65 then "High" else if age >? 45 then "Moderate" else "Low".

Definition gender_level (male : string) : string :=
  if (male =? "Male")%string then "Higher" else "Lower".

Definition smoking_level (currentSmoker : string) : string :=
  if (currentSmoker =? "Yes")%string then "High" else "Low".

Definition chol_level (totChol : Z) : string :=
  if totChol >? 240 then "High" else if totChol >? 200 then "Moderate" else "Low".

Definition bp_level (sysBP diaBP : Z) : string :=
  if (sysBP >? 140) || (diaBP >? 90) then "High"
  else if sysBP >? 120 then "Moderate" else "Low".

Definition bmi_level (bmi : float) : string :=
  if (30 <? bmi)%float then "High"
  else if (25 <? bmi)%float then "Moderate" else "Low".

Definition diabetes_level (diabetes : string) : string :=
  if (diabetes =? "Yes")%string then "High" else "Low".

Definition risk_factor_names : list string :=
  [ "Age"; "Gender"; "Smoking"; "Cholesterol"; "Blood Pressure"; "BMI";
    "Diabetes" ]%string.

Definition risk_factor_levels (f : Form) (bmi : float) : list string :=
  [ age_level (age f); gender_level (male f);
    smoking_level (currentSmoker f); chol_level (totChol f);
    bp_level (sysBP f) (diaBP f); bmi_level bmi;
    diabetes_level (diabetes f) ].

(** The order of the three levels of the table. *)
Definition level_rank (level : string) : nat :=
  if (level =? "High")%string then 2
  else if (level =? "Moderate")%string then 1 else 0.

(** ** The session and the sidebar (lines 222-230) *)

(** [st.session_state]: the key [prediction_history] is absent until the
    sidebar has run once. *)
Record SessionState : Type := {
  prediction_history : option (list HistoryEntry)
}.

(** What the sidebar writes under "Prediction History": a sentence, or the
    table of the columns [timestamp] and [risk_percentage]. *)
Inductive SidebarView : Type :=
| NoPredictions
| HistoryTable (rows : list (string * float)).

(** [DataFrame.tail(n)]: the last [n] rows, all of them when there are
    fewer. *)
Definition df_tail {A : Type} (n : nat) (l : list A) : list A :=
  skipn (List.length l - n) l.

(** Lines 223-230. *)
Definition sidebar (st : SessionState) : SessionState * SidebarView :=
  let history :=
    match prediction_history st with
    | None => []
    | Some h => h
    end in
  ({| prediction_history := Some history |},
   match history with
   | [] => NoPredictions
   | _ :: _ =>
       HistoryTable
         (df_tail 5 (map (fun e => (timestamp e, risk_percentage e)) history))
   end).

(** What one run of the script leaves on the page: the sidebar, and the
    result of the submission when there is one (an exception ends the run
    where it is raised). *)
Record Page : Type := {
  page_sidebar : SidebarView;
  page_result : option (result Report)
}.

(** What the user did before a run. *)
Record Run : Type := {
  run_now : string;
  run_form : Form;
  run_submit : bool
}.

Definition history_of (st : SessionState) : list HistoryEntry :=
  match prediction_history st with
  | None => []
  | Some h => h
  end.

Section Script.

Context {S M : Type} `{Scaler S} `{Classifier M}.
Variable scaler : S.
Variable model : M.

(** One run of the script from top to bottom: the sidebar (lines 205-230),
    the form with its BMI (lines 333-414), then the submission
    (lines 417-590) when the button was pressed. *)
Definition script_run (st : SessionState) (r : Run) : SessionState * Page :=
  let (st1, view) := sidebar st in
  match BMI (height (run_form r)) (weight (run_form r)) with
  | Raise e => (st1, {| page_sidebar := view; page_result := Some (Raise e) |})
  | Ok _ =>
      if run_submit r then
        match submit scaler model (run_now r) (run_form r) (history_of st1) with
        | Ok (history, rep) =>
            ({| prediction_history := Some history |},
             {| page_sidebar := view; page_result := Some (Ok rep) |})
        | Raise e =>
            (st1, {| page_sidebar := view; page_result := Some (Raise e) |})
        end
      else (st1, {| page_sidebar := view; page_result := None |})
  end.

(** A session: the runs one after the other, each starting from the state
    the one before left. *)
Fixpoint session (st : SessionState) (runs : list Run) : SessionState * list Page :=
  match runs with
  | [] => (st, [])
  | r :: runs' =>
      let (st1, page) := script_run st r in
      let (st2, pages) := session st1 runs' in
      (st2, page :: pages)
  end.

(** The run stored an entry. *)
Definition scored (p : Page) : bool :=
  match page_result p with
  | Some (Ok _) => true
  | _ => false
  end.

End Script.

(** ** More checks over the ranges of the number inputs *)

(** The divisor of line 351 and, when it is not zero, the quotient. *)
Definition BMI_divisor (h : Z) : float :=
  float_sqr (float_of_int h / float_of_int 100).

Definition BMI_value (h w : Z) : float :=
  (float_of_int w / BMI_divisor h)%float.

(** A check of every pair of two tables; each table is built once. *)
Definition forallb2 {A B : Type} (P : A -> B -> bool)
    (la : list A) (lb : list B) : bool :=
  forallb (fun a => forallb (P a) lb) la.

(** One more kilogram gives a larger quotient, whatever the divisor of a
    height from 100 to 250. *)
Definition weights_check : bool :=
  forallb2 (fun (d : float) (ab : float * float) =>
              (fst ab / d <? snd ab / d)%float)
    (map BMI_divisor (Zrange 100 250))
    (map (fun w => (float_of_int w, float_of_int (w + 1))) (Zrange 30 299)).

(** One more centimetre gives a smaller quotient, whatever the weight from
    30 to 300. *)
Definition heights_check : bool :=
  forallb2 (fun (x : float) (dd : float * float) =>
              (x / snd dd <? x / fst dd)%float)
    (map float_of_int (Zrange 30 300))
    (map (fun h => (BMI_divisor h, BMI_divisor (h + 1))) (Zrange 100 249)).

(** A scaler's column gives a finite value on every integer of a range,
    and on every BMI of the form. *)
Definition column_scales (m s : float) (lo hi : Z) : bool :=
  forallb (fun n => finite_float (standardize (float_of_int n) m s))
    (Zrange lo hi).

Definition BMI_column_scales (m s : float) : bool :=
  forallb2 (fun (d w : float) => finite_float (standardize (w / d) m s))
    (map BMI_divisor (Zrange 100 250))
    (map float_of_int (Zrange 30 300)).

(** The scaler has 12 means and 12 scales, and every row of a form within
    the bounds of the inputs is scaled to finite values. *)
Definition scales_form_rows (sc : StandardScaler) : bool :=
  match mean_ sc, scale_ sc with
  | [m0; m1; m2; m3; m4; m5; m6; m7; m8; m9; m10; m11],
    [s0; s1; s2; s3; s4; s5; s6; s7; s8; s9; s10; s11] =>
      column_scales m0 s0 1 120 && column_scales m1 s1 0 1 &&
      column_scales m2 s2 0 1 && column_scales m3 s3 0 100 &&
      column_scales m4 s4 100 400 && column_scales m5 s5 80 250 &&
      column_scales m6 s6 60 200 && BMI_column_scales m7 s7 &&
      column_scales m8 s8 40 200 && column_scales m9 s9 50 400 &&
      column_scales m10 s10 0 1 && column_scales m11 s11 0 1
  | _, _ => false
  end.

(** The conversion of an [int] to binary64 loses nothing. *)
Definition int_is_exact (n : Z) : bool :=
  match Q_of_float (float_of_int n) with
  | Some q => Qeq_bool q (inject_Z n)
  | None => false
  end.

(** The integers of the row of lines 425-427, in its order, without the
    BMI. *)
Definition int_columns (f : Form) : list Z :=
  [ age f; male_val f; currentSmoker_val f; cigsPerDay f; totChol f;
    sysBP f; diaBP f; heartRate f; glucose f; diabetes_val f;
    prevalentHyp_val f ].

(** ** The training table (src/train_model.py, lines 15-27) *)

Module Train.

(** What [pd.read_csv] returns: the column names of the file, distinct, and
    one row of binary64 cells per patient, a missing cell being a NaN (a
    row that stops short is filled with NaN). *)
Record DataFrame : Type := {
  columns : list string;
  rows : list (list float)
}.

(** Indexing a table with names it does not have raises [KeyError], which
    names the missing ones. *)
Inductive exn : Type :=
| KeyError (missing : list string).

Inductive result (A : Type) : Type :=
| Ok (a : A)
| Raise (e : exn).
Arguments Ok {A} a.
Arguments Raise {A} e.

Definition TARGET : string := "TenYearCHD".

(** The position of a column. *)
Fixpoint index_of (name : string) (cols : list string) : option nat :=
  match cols with
  | [] => None
  | c :: cols' =>
      if (c =? name)%string then Some 0%nat
      else option_map S (index_of name cols')
  end.

Definition has_column (cols : list string) (name : string) : bool :=
  match index_of name cols with
  | Some _ => true
  | None => false
  end.

(** The cell of a row at a position. *)
Definition cell_at (i : nat) (r : list float) : float := nth i r nan.

(** [df[names]] with a list of names: the named columns, in the order of
    the list. *)
Definition getitem_list (names : list string) (df : DataFrame) : result DataFrame :=
  match filter (fun name => negb (has_column (columns df) name)) names with
  | [] =>
      Ok {| columns := names;
            rows := map (fun r =>
                      map (fun name =>
                        match index_of name (columns df) with
                        | Some i => cell_at i r
                        | None => nan
                        end) names) (rows df) |}
  | missing => Raise (KeyError missing)
  end.

(** [df[name].values] with one name: the cells of that column. *)
Definition getitem (name : string) (df : DataFrame) : result (list float) :=
  match index_of name (columns df) with
  | Some i => Ok (map (cell_at i) (rows df))
  | None => Raise (KeyError [name])
  end.

(** [df.dropna()]: the rows without a missing cell, in their order. *)
Definition dropna (df : DataFrame) : DataFrame :=
  {| columns := columns df;
     rows := filter (fun r => negb (existsb is_nan r)) (rows df) |}.

(** [df.values]. *)
Definition values (df : DataFrame) : list (list float) := rows df.

(** Lines 24-27: [df = df[FEATURES + [TARGET]].dropna()], then
    [X = df[FEATURES].values] and [y = df[TARGET].values]. *)
Definition load_Xy (df : DataFrame) : result (list (list float) * list float) :=
  match getitem_list (FEATURES ++ [TARGET]) df with
  | Raise e => Raise e
  | Ok selected =>
      let complete := dropna selected in
      match getitem_list FEATURES complete with
      | Raise e => Raise e
      | Ok features =>
          match getitem TARGET complete with
          | Raise e => Raise e
          | Ok y => Ok (values features, y)
          end
      end
  end.

(** A column of the table as a whole, looked up by its name. *)
Definition column (df : DataFrame) (name : string) : option (list float) :=
  option_map (fun i => map (cell_at i) (rows df)) (index_of name (columns df)).

(** A table of two patients with its columns in another order than
    [FEATURES], one column more, and a missing glucose in the second row. *)
Definition sample : DataFrame :=
  {| columns :=
       [ "male"; "age"; "education"; "currentSmoker"; "cigsPerDay";
         "totChol"; "sysBP"; "diaBP"; "BMI"; "heartRate"; "glucose";
         "TenYearCHD"; "diabetes"; "prevalentHyp" ]%string;
     rows :=
       [ [ 1; 39; 4; 0; 0; 195; 106; 70; 26.5; 80; 77; 0; 0; 0 ];
         [ 0; 46; nan; 0; 0; 250; 121; 81; 28.75; 95; nan; 0; 0; 0 ] ]%float |}.

(** The same two patients with the columns in the order of [FEATURES] and
    no other column. *)
Definition sample_sorted : DataFrame :=
  {| columns := FEATURES ++ [TARGET];
     rows :=
       [ [ 39; 1; 0; 0; 195; 106; 70; 26.5; 80; 77; 0; 0; 0 ];
         [ 46; 0; 0; 0; 250; 121; 81; 28.75; 95; nan; 0; 0; 0 ] ]%float |}.

End Train.

(** 20.0, 30.0, 50.0 and 70.0 as sign, mantissa and exponent. *)
Definition SF20 : spec_float := S754_finite false 5629499534213120 (-48).
Definition SF30 : spec_float := S754_finite false 8444249301319680 (-48).
Definition SF50 : spec_float := S754_finite false 7036874417766400 (-47).
Definition SF70 : spec_float := S754_finite false 4925812092436480 (-46).

(** Case analysis on a value compared with thresholds. *)
Ltac sf_cases x :=
  unfold SFleb, SFltb, SFeqb, SFcompare;
  change (Pos.compare_cont Eq) with Pos.compare;
  destruct x as [[|]|[|]| |[|] ? ?]; cmp_cases; subst;
  repeat rewrite Z.compare_refl; repeat rewrite Pos.compare_refl;
  simpl.

(** * Properties *)

(** ** Order on binary64 values *)

Lemma SFleb_ltb_trans (x y z : spec_float) :
  SFleb x y = true -> SFltb y z = true -> SFltb x z = true.
Proof. destruct x, y, z; sf_order. Qed.

Lemma SFltb_leb_trans (x y z : spec_float) :
  SFltb x y = true -> SFleb y z = true -> SFltb x z = true.
Proof. destruct x, y, z; sf_order. Qed.

Lemma leb_ltb_trans (x y z : float) :
  (x <=? y)%float = true -> (y <? z)%float = true -> (x <? z)%float = true.
Proof. rewrite leb_spec, !ltb_spec. apply SFleb_ltb_trans. Qed.

Lemma ltb_leb_trans (x y z : float) :
  (x <? y)%float = true -> (y <=? z)%float = true -> (x <? z)%float = true.
Proof. rewrite leb_spec, !ltb_spec. apply SFltb_leb_trans. Qed.

Lemma SFleb_finite_pos (m mc : positive) (e ec : Z) :
  e < ec \/ (e = ec /\ Zpos m <= Zpos mc) ->
  SFleb (S754_finite false m e) (S754_finite false mc ec) = true.
Proof.
  intros Hle. unfold SFleb, SFcompare.
  change (Pos.compare_cont Eq m mc) with (Pos.compare m mc).
  destruct (Z.compare_spec e ec); [|reflexivity|lia].
  destruct (Pos.compare_spec m mc); try reflexivity. lia.
Qed.

Lemma SFleb_finite_pos_inv (m mc : positive) (e ec : Z) :
  SFleb (S754_finite false m e) (S754_finite false mc ec) = true ->
  e < ec \/ (e = ec /\ Zpos m <= Zpos mc).
Proof.
  unfold SFleb, SFcompare.
  change (Pos.compare_cont Eq m mc) with (Pos.compare m mc).
  destruct (Z.compare_spec e ec); [|lia|discriminate].
  destruct (Pos.compare_spec m mc); try discriminate; intros _; right; split; lia.
Qed.

Lemma Prim2SF_0 : Prim2SF 0 = S754_zero false.
Proof. vm_compute. reflexivity. Qed.

Lemma Prim2SF_1 : Prim2SF 1 = S754_finite false 4503599627370496 (-52).
Proof. vm_compute. reflexivity. Qed.

Lemma Prim2SF_100 : Prim2SF 100 = SF100.
Proof. vm_compute. reflexivity. Qed.

(** A value between 0 and 100 is neither a NaN nor an infinity. *)
Lemma between_0_100_finite (x : float) :
  (0 <=? x)%float = true -> (x <=? 100)%float = true ->
  is_nan x = false /\ is_infinity x = false.
Proof.
  unfold is_nan, is_infinity.
  rewrite !leb_spec, !eqb_spec, abs_spec, Prim2SF_0, Prim2SF_100.
  replace (Prim2SF infinity) with (S754_infinity false) by (vm_compute; reflexivity).
  unfold SF100. generalize 7036874417766400%positive. intros c.
  destruct (Prim2SF x) as [s|s| |s m e]; intros H0 H1.
  - split; reflexivity.
  - destruct s; discriminate.
  - discriminate.
  - split; [|reflexivity].
    unfold SFeqb, SFcompare.
    change (Pos.compare_cont Eq m m) with (Pos.compare m m).
    rewrite Z.compare_refl, Pos.compare_refl. destruct s; reflexivity.
Qed.

(** ** Tier boundaries *)

Lemma display_tier_boundaries :
  display_tier 20 = Moderate /\ display_tier 50 = High /\
  display_tier f19_999 = Low /\ display_tier f49_999 = Moderate.
Proof. repeat split; vm_compute; reflexivity. Qed.

(** C1 (fails on the history path): at exactly 20.0 and exactly 50.0 the
    history entry of line 440 takes the lower tier, Low and Moderate, while
    the result display of lines 507-533 takes the upper one, Moderate and
    High; at 19.999 and 49.999 the two paths agree. *)
Theorem history_tier_boundaries :
  history_tier 20 = Low /\ display_tier 20 = Moderate /\
  history_tier 50 = Moderate /\ display_tier 50 = High /\
  history_tier f19_999 = Low /\ history_tier f49_999 = Moderate.
Proof. repeat split; vm_compute; reflexivity. Qed.

(** The boundary is reached by a run of the script: with a class-1
    probability of one half the page shows "High Risk" and the history entry
    says "Moderate". *)
Lemma submit_half_disagrees :
  exists hist rep,
    submit unit_scaler coin_model "2025-01-01 00:00" default_form [] = Ok (hist, rep) /\
    shown_prob rep = 50%float /\
    shown_risk_level rep = "High Risk"%string /\
    map risk_level hist = [ "Moderate"%string ].
Proof. eexists; eexists; repeat split; vm_compute; reflexivity. Qed.

(** C4: on both paths the tier depends on the probability alone and does not
    go down when the probability goes up. *)
Theorem tiers_monotone (p1 p2 : float) :
  (p1 <=? p2)%float = true ->
  (tier_rank (display_tier p1) <= tier_rank (display_tier p2))%nat /\
  (tier_rank (history_tier p1) <= tier_rank (history_tier p2))%nat.
Proof.
  intros Hle. split.
  - unfold display_tier.
    destruct (p2 <? 20)%float eqn:H20.
    + rewrite (leb_ltb_trans _ _ _ Hle H20). simpl. lia.
    + destruct (p2 <? 50)%float eqn:H50.
      * rewrite (leb_ltb_trans _ _ _ Hle H50).
        destruct (p1 <? 20)%float; simpl; lia.
      * destruct (p1 <? 20)%float; [simpl; lia|].
        destruct (p1 <? 50)%float; simpl; lia.
  - unfold history_tier.
    destruct (50 <? p1)%float eqn:H50.
    + rewrite (ltb_leb_trans _ _ _ H50 Hle). simpl. lia.
    + destruct (20 <? p1)%float eqn:H20.
      * rewrite (ltb_leb_trans _ _ _ H20 Hle).
        destruct (50 <? p2)%float; simpl; lia.
      * destruct (50 <? p2)%float; [simpl; lia|].
        destruct (20 <? p2)%float; simpl; lia.
Qed.

Lemma tiers_monotone_witness :
  (tier_rank (display_tier 10) <= tier_rank (display_tier 60))%nat /\
  (tier_rank (history_tier 10) <= tier_rank (history_tier 60))%nat.
Proof. apply (tiers_monotone 10 60). vm_compute. reflexivity. Defined.

(** Both tiers written by a run are those of the probability shown. *)
Lemma report_tiers (now : string) (f : Form) (history : list HistoryEntry)
    (p : float) :
  shown_risk_level (snd (report now f history p)) = display_label (display_tier p) /\
  map risk_level (fst (report now f history p)) =
    map risk_level history ++ [ history_label (history_tier p) ].
Proof. split; [reflexivity|]. unfold report. simpl. rewrite map_app. reflexivity. Qed.

(** ** Rounding of a product below 100 *)

Lemma digits2_pos_size (p : positive) : digits2_pos p = Pos.size p.
Proof. induction p; simpl; congruence. Qed.

Lemma digits2_pos_bounds (p : positive) :
  2 ^ (Zpos (digits2_pos p) - 1) <= Zpos p < 2 ^ Zpos (digits2_pos p).
Proof.
  rewrite digits2_pos_size. split.
  - pose proof (Pos.size_le p) as H.
    apply Pos2Z.pos_le_pos in H. rewrite Pos2Z.inj_pow in H.
    change (Zpos p~0) with (2 * Zpos p) in H.
    replace (Zpos (Pos.size p)) with (Z.succ (Zpos (Pos.size p) - 1)) in H by lia.
    rewrite Z.pow_succ_r in H by lia. lia.
  - pose proof (Pos.size_gt p) as H.
    apply Pos2Z.pos_lt_pos in H. rewrite Pos2Z.inj_pow in H. exact H.
Qed.

Lemma Zdigits2_le (m n : Z) : 0 <= m -> m < 2 ^ n -> 0 <= n -> Zdigits2 m <= n.
Proof.
  intros Hm Hlt Hn. destruct m as [|p|p]; simpl; try lia.
  pose proof (digits2_pos_bounds p) as [Hlo _].
  assert (Hp : 2 ^ (Zpos (digits2_pos p) - 1) < 2 ^ n) by lia.
  apply Z.pow_lt_mono_r_iff in Hp; lia.
Qed.

(** One shift to the right halves the mantissa. *)
Lemma shr_1_m (mrs : shr_record) :
  0 <= shr_m mrs -> shr_m (shr_1 mrs) = shr_m mrs / 2.
Proof.
  destruct mrs as [m r s]. simpl. intros Hm.
  destruct m as [|[p|p|]|p]; simpl; try lia; try reflexivity;
    rewrite <- Z.div2_div; reflexivity.
Qed.

Lemma shr_iter_m (n : positive) : forall mrs : shr_record,
  0 <= shr_m mrs ->
  shr_m (iter_pos shr_1 n mrs) = shr_m mrs / 2 ^ Zpos n.
Proof.
  induction n as [n IH|n IH|]; intros mrs Hm; simpl iter_pos.
  - assert (H1 : 0 <= shr_m (shr_1 mrs))
      by (rewrite shr_1_m by lia; apply Z.div_pos; lia).
    assert (H2 : 0 <= shr_m (iter_pos shr_1 n (shr_1 mrs))).
    { rewrite IH by lia. apply Z.div_pos; [lia|]. apply Z.pow_pos_nonneg; lia. }
    rewrite IH by lia. rewrite IH by lia. rewrite shr_1_m by lia.
    rewrite !Z.div_div by (try apply Z.pow_pos_nonneg; lia).
    f_equal. rewrite <- Z.pow_add_r by lia.
    replace (2 * 2 ^ (Zpos n + Zpos n)) with (2 ^ Z.succ (Zpos n + Zpos n))
      by (rewrite Z.pow_succ_r by lia; reflexivity).
    f_equal. lia.
  - assert (H2 : 0 <= shr_m (iter_pos shr_1 n mrs)).
    { rewrite IH by lia. apply Z.div_pos; [lia|]. apply Z.pow_pos_nonneg; lia. }
    rewrite IH by lia. rewrite IH by lia.
    rewrite !Z.div_div by (try apply Z.pow_pos_nonneg; lia).
    f_equal. rewrite <- Z.pow_add_r by lia. f_equal. lia.
  - rewrite shr_1_m by lia. reflexivity.
Qed.

Lemma shr_record_of_loc_m (m : Z) (l : location) :
  shr_m (shr_record_of_loc m l) = m.
Proof. destruct l as [|[ | | ]]; reflexivity. Qed.

(** The exponent [shr_fexp] settles on and the mantissa it leaves. *)
Lemma shr_fexp_m (m e : Z) (l : location) :
  0 <= m ->
  exists k, 0 <= k /\
    snd (shr_fexp prec emax m e l) = e + k /\
    snd (shr_fexp prec emax m e l) = Z.max e (fexp prec emax (Zdigits2 m + e)) /\
    shr_m (fst (shr_fexp prec emax m e l)) = m / 2 ^ k.
Proof.
  intros Hm. unfold shr_fexp, shr.
  destruct (fexp prec emax (Zdigits2 m + e) - e) as [|k|k] eqn:Hk.
  - exists 0. simpl. rewrite shr_record_of_loc_m, Z.div_1_r. lia.
  - exists (Zpos k). simpl fst; simpl snd.
    rewrite shr_iter_m by (rewrite shr_record_of_loc_m; lia).
    rewrite shr_record_of_loc_m. lia.
  - exists 0. simpl. rewrite shr_record_of_loc_m, Z.div_1_r. lia.
Qed.

Lemma round_nearest_even_bounds (m : Z) (l : location) :
  m <= round_nearest_even m l <= m + 1.
Proof.
  unfold round_nearest_even. destruct l as [|[ | | ]]; try lia.
  destruct (Z.even m); lia.
Qed.

(** A positive value below 100 rounds to a value between 0 and 100. *)
Lemma binary_round_aux_below_100 (M : positive) (E : Z) :
  E <= -99 -> Zpos M < 25 * 2 ^ (2 - E) ->
  SFleb (S754_zero false) (binary_round_aux prec emax false (Zpos M) E loc_Exact) = true /\
  SFleb (binary_round_aux prec emax false (Zpos M) E loc_Exact) SF100 = true.
Proof.
  intros HE HM. unfold binary_round_aux.
  destruct (shr_fexp_m (Zpos M) E loc_Exact) as (k & Hk & He1 & He1' & Hm1); [lia|].
  destruct (shr_fexp prec emax (Zpos M) E loc_Exact) as [mrs1 e1].
  simpl fst in *; simpl snd in *.
  pose proof (round_nearest_even_bounds (shr_m mrs1) (loc_of_shr_record mrs1)) as Hr.
  set (r := round_nearest_even (shr_m mrs1) (loc_of_shr_record mrs1)) in *.
  assert (Hpow : forall a b, 0 <= a -> 0 <= b -> 2 ^ (a + b) = 2 ^ a * 2 ^ b)
    by (intros; apply Z.pow_add_r; lia).
  assert (Hpos : forall a, 0 <= a -> 0 < 2 ^ a)
    by (intros; apply Z.pow_pos_nonneg; lia).
  assert (HdM : Zdigits2 (Zpos M) <= 7 - E).
  { apply Zdigits2_le; try lia.
    replace (7 - E) with (5 + (2 - E)) by lia. rewrite Hpow by lia.
    change (2 ^ 5) with 32. specialize (Hpos (2 - E)). nia. }
  assert (He1le : e1 <= -46).
  { rewrite He1'. unfold fexp, SpecFloat.emin, prec, emax. lia. }
  assert (Hq : 0 <= shr_m mrs1 < 25 * 2 ^ (2 - e1)).
  { rewrite Hm1. split; [apply Z.div_pos; [lia|apply Hpos; lia]|].
    apply Z.div_lt_upper_bound; [apply Hpos; lia|].
    replace (2 - E) with (k + (2 - e1)) in HM by lia.
    rewrite Hpow in HM by lia. lia. }
  assert (Hrle : 0 <= r <= 25 * 2 ^ (2 - e1)) by lia.
  destruct (shr_fexp_m r e1 loc_Exact) as (k2 & Hk2 & He2 & He2' & Hm2); [lia|].
  destruct (shr_fexp prec emax r e1 loc_Exact) as [mrs2 e2].
  simpl fst in *; simpl snd in *.
  assert (Hdr : Zdigits2 r <= 7 - e1).
  { apply Zdigits2_le; try lia.
    replace (7 - e1) with (5 + (2 - e1)) by lia. rewrite Hpow by lia.
    change (2 ^ 5) with 32. specialize (Hpos (2 - e1)). nia. }
  assert (He2le : e2 <= -46).
  { rewrite He2'. unfold fexp, SpecFloat.emin, prec, emax. lia. }
  assert (Hm2b : 0 <= shr_m mrs2 <= 25 * 2 ^ (2 - e2)).
  { rewrite Hm2. split; [apply Z.div_pos; [lia|apply Hpos; lia]|].
    apply Z.div_le_upper_bound; [apply Hpos; lia|].
    replace (2 - e1) with (k2 + (2 - e2)) in Hrle by lia.
    rewrite Hpow in Hrle by lia. lia. }
  destruct (shr_m mrs2) as [|m2|m2] eqn:Hm2e; [split; reflexivity| |lia].
  replace (e2 <=? emax - prec) with true
    by (symmetry; apply Z.leb_le; unfold emax, prec; lia).
  split; [reflexivity|].
  apply SFleb_finite_pos.
  destruct (Z.eq_dec e2 (-46)) as [Heq|Hne]; [right|left; lia].
  split; [exact Heq|].
  rewrite Heq in Hm2b.
  assert (H100 : 25 * 2 ^ (2 - -46) = 7036874417766400) by (vm_compute; reflexivity).
  rewrite H100 in Hm2b. clear - Hm2b. lia.
Qed.

Lemma valid_finite_digits (s : bool) (m : positive) (e : Z) :
  SpecFloat.valid_binary prec emax (S754_finite s m e) = true ->
  Z.max (Zpos (digits2_pos m) + e - 53) (-1074) = e.
Proof.
  simpl. unfold bounded, canonical_mantissa, fexp, SpecFloat.emin, prec, emax.
  intros H. apply andb_prop in H. destruct H as [H _].
  apply Z.eqb_eq in H. exact H.
Qed.

(** A probability times 100 is a percentage, rounding included. *)
Lemma mul_100_bounds (p : float) :
  (0 <=? p)%float = true -> (p <=? 1)%float = true ->
  (0 <=? p * 100)%float = true /\ (p * 100 <=? 100)%float = true.
Proof.
  intros H0 H1.
  rewrite leb_spec in H0, H1. rewrite !leb_spec, mul_spec.
  rewrite Prim2SF_0 in *. rewrite Prim2SF_1 in H1. rewrite Prim2SF_100.
  pose proof (Prim2SF_valid p) as Hv.
  destruct (Prim2SF p) as [s|s| |s m e] eqn:Hp.
  - destruct s; split; reflexivity.
  - destruct s; discriminate.
  - discriminate.
  - destruct s; [discriminate|].
    apply SFleb_finite_pos_inv in H1.
    apply valid_finite_digits in Hv.
    pose proof (digits2_pos_bounds m) as [Hlo Hhi].
    destruct H1 as [He|[He Hm]].
    + unfold SF64mul, SF100, SFmul. change (xorb false false) with false.
      apply binary_round_aux_below_100; [lia|].
      rewrite Pos2Z.inj_mul.
      assert (Hc : Zpos 7036874417766400 = 25 * 2 ^ 48) by (vm_compute; reflexivity).
      rewrite Hc.
      replace (2 - (e + -46)) with (48 + (- e - 53) + 53) by lia.
      rewrite !Z.pow_add_r by lia.
      assert (Hd : Zpos (digits2_pos m) <= 53) by lia.
      assert (Hm53 : Zpos m < 2 ^ 53).
      { eapply Z.lt_le_trans; [exact Hhi|]. apply Z.pow_le_mono_r; lia. }
      assert (Hpos : 0 < 2 ^ (- e - 53)) by (apply Z.pow_pos_nonneg; lia).
      assert (H48 : 0 < 2 ^ 48) by (apply Z.pow_pos_nonneg; lia).
      clear - Hm53 Hpos H48. nia.
    + assert (Hd : Zpos (digits2_pos m) = 53) by lia.
      rewrite Hd in Hlo. change (2 ^ (53 - 1)) with 4503599627370496 in Hlo.
      assert (Hm1 : m = 4503599627370496%positive) by (apply Pos2Z.inj; lia).
      subst m e. split; vm_compute; reflexivity.
Qed.

(** ** Checks over the ranges of the number inputs *)

Lemma forallb_Zrange (P : Z -> bool) (lo hi : Z) :
  forallb P (Zrange lo hi) = true ->
  forall z, lo <= z <= hi -> P z = true.
Proof.
  intros H z Hz. rewrite forallb_forall in H. apply H.
  unfold Zrange. apply in_map_iff. exists (Z.to_nat (z - lo)).
  split; [lia|]. apply in_seq. lia.
Qed.

Lemma forallb_Zrange2 (P : Z -> Z -> bool) (lo1 hi1 lo2 hi2 : Z) :
  forallb (fun a => forallb (P a) (Zrange lo2 hi2)) (Zrange lo1 hi1) = true ->
  forall a b, lo1 <= a <= hi1 -> lo2 <= b <= hi2 -> P a b = true.
Proof.
  intros H a b Ha Hb.
  apply (forallb_Zrange (P a) lo2 hi2); [|exact Hb].
  apply (forallb_Zrange (fun a => forallb (P a) (Zrange lo2 hi2)) lo1 hi1 H a Ha).
Qed.

Lemma int_is_finite_0_400 (n : Z) : 0 <= n <= 400 -> int_is_finite n = true.
Proof.
  apply (forallb_Zrange int_is_finite 0 400). vm_compute. reflexivity.
Qed.

Lemma BMI_is_finite_in_ranges (h w : Z) :
  100 <= h <= 250 -> 30 <= w <= 300 -> BMI_is_finite h w = true.
Proof.
  apply (forallb_Zrange2 BMI_is_finite 100 250 30 300). vm_compute. reflexivity.
Qed.

Lemma BMI_within_in_ranges (h w : Z) :
  100 <= h <= 250 -> 30 <= w <= 300 ->
  BMI_within (1 # 1000000000000) h w = true.
Proof.
  apply (forallb_Zrange2 (BMI_within (1 # 1000000000000)) 100 250 30 300).
  vm_compute. reflexivity.
Qed.

Lemma BMI_divisor_nonzero_in_range (h : Z) :
  100 <= h <= 250 -> BMI_divisor_nonzero h = true.
Proof.
  apply (forallb_Zrange BMI_divisor_nonzero 100 250). vm_compute. reflexivity.
Qed.

(** ** BMI *)

Lemma BMI_unfold (h w : Z) :
  BMI h w =
  if (float_sqr (float_of_int h / float_of_int 100) =? 0)%float
  then Raise ZeroDivisionError
  else Ok (float_of_int w / float_sqr (float_of_int h / float_of_int 100))%float.
Proof. reflexivity. Qed.

(** C5: for every height and weight the form allows, the value computed at
    line 351 is weight / (height/100)^2 up to 10^-12; for 170 cm and 70 kg
    it lies between 24.15 and 24.25. *)
Theorem BMI_is_spec_formula :
  (forall h w, 100 <= h <= 250 -> 30 <= w <= 300 ->
     exists b q, BMI h w = Ok b /\ Q_of_float b = Some q /\
       (Qabs (q - BMI_exact h w) <= 1 # 1000000000000)%Q) /\
  (exists b q, BMI 170 70 = Ok b /\ Q_of_float b = Some q /\
     (2415 # 100 <= q)%Q /\ (q <= 2425 # 100)%Q).
Proof.
  split.
  - intros h w Hh Hw.
    pose proof (BMI_within_in_ranges h w Hh Hw) as H.
    unfold BMI_within in H.
    destruct (BMI h w) as [b|e]; [|discriminate].
    destruct (Q_of_float b) as [q|] eqn:Hq; [|discriminate].
    exists b, q. split; [reflexivity|]. split; [exact Hq|].
    apply Qle_bool_iff. exact H.
  - eexists. eexists. split; [vm_compute; reflexivity|].
    split; [vm_compute; reflexivity|].
    split; apply Qle_bool_iff; vm_compute; reflexivity.
Qed.

Lemma BMI_is_spec_formula_witness :
  exists b q, BMI 180 81 = Ok b /\ Q_of_float b = Some q /\
    (Qabs (q - BMI_exact 180 81) <= 1 # 1000000000000)%Q.
Proof. apply (proj1 BMI_is_spec_formula 180 81); lia. Defined.

(** ** The degenerate scaler *)

(** Dividing by a zero of either sign gives a NaN or an infinity. *)
Lemma div_by_zero (a s : float) :
  (s =? 0)%float = true ->
  (a / s)%float = nan \/ (a / s)%float = infinity \/ (a / s)%float = neg_infinity.
Proof.
  rewrite eqb_spec, Prim2SF_0. intros Hs.
  pose proof (div_spec a s) as Hd.
  rewrite <- (SF2Prim_Prim2SF (a / s)), Hd.
  destruct (Prim2SF s) as [bs|bs| |bs ms es];
    try discriminate; try (destruct bs; discriminate).
  unfold SF64div, SFdiv.
  destruct (Prim2SF a) as [ba|ba| |ba ma ea]; simpl; auto;
    destruct (xorb ba bs); simpl; auto.
Qed.

Lemma standardize_row_nth (i : nat) : forall (X means scales : list float)
    (x m s : float),
  nth_error X i = Some x -> nth_error means i = Some m ->
  nth_error scales i = Some s ->
  nth_error (standardize_row X means scales) i = Some (standardize x m s).
Proof.
  induction i as [|i IH]; intros [|x0 X0] [|m0 means] [|s0 scales] x m s;
    simpl; try discriminate.
  - intros [= ->] [= ->] [= ->]. reflexivity.
  - apply IH.
Qed.

(** C2 (as stated it fails): with a scale of zero in first place the
    transform of the default row returns, and its first entry is infinite;
    with an estimator that takes any row the scoring step returns too. *)
Lemma degenerate_scaler_divides :
  exists bmi z,
    features default_form = Ok (X default_form bmi) /\
    transform degenerate_scaler (X default_form bmi) = Ok z /\
    nth_error z 0 = Some infinity /\
    raises (score degenerate_scaler coin_model (X default_form bmi)) = false.
Proof.
  eexists. eexists. split; [vm_compute; reflexivity|].
  split; [vm_compute; reflexivity|]. split; vm_compute; reflexivity.
Qed.

(** C2 (amended): nothing checks the scales.  When the scaler accepts the
    row and its i-th scale is zero, the transform returns a row whose i-th
    entry is a NaN or an infinity, and the scoring step goes on to call the
    model with that row. *)
Theorem zero_scale_divides (sc : StandardScaler) (x : list float) (i : nat)
    (s : float) :
  List.length x = List.length (mean_ sc) ->
  List.length x = List.length (scale_ sc) ->
  existsb is_infinity x = false ->
  nth_error (scale_ sc) i = Some s ->
  (s =? 0)%float = true ->
  exists z zi,
    transform sc x = Ok z /\
    nth_error z i = Some zi /\
    (zi = nan \/ zi = infinity \/ zi = neg_infinity) /\
    forall (M : Type) (CM : Classifier M) (model : M),
      score sc model x =
      (label <- predict model z ;;
       row <- predict_proba model z ;;
       Ok {| X_scaled := z; prediction := label;
             prob := (snd row * 100)%float |}).
Proof.
  intros Hlm Hls Hinf Hs Hz.
  assert (Hi : (i < List.length (scale_ sc))%nat)
    by (apply nth_error_Some; congruence).
  destruct (nth_error x i) as [xi|] eqn:Hxi;
    [|apply nth_error_None in Hxi; lia].
  destruct (nth_error (mean_ sc) i) as [mi|] eqn:Hmi;
    [|apply nth_error_None in Hmi; lia].
  assert (Ht : transform sc x = Ok (standardize_row x (mean_ sc) (scale_ sc))).
  { simpl. unfold StandardScaler_transform.
    rewrite <- Hlm, <- Hls, Nat.eqb_refl, Hinf. reflexivity. }
  exists (standardize_row x (mean_ sc) (scale_ sc)), (standardize xi mi s).
  split; [exact Ht|].
  split; [apply standardize_row_nth; assumption|].
  split; [apply div_by_zero; exact Hz|].
  intros M CM model. unfold score. rewrite Ht. reflexivity.
Qed.

Lemma zero_scale_divides_witness :
  exists z zi,
    transform degenerate_scaler (X default_form 24%float) = Ok z /\
    nth_error z 0 = Some zi /\
    (zi = nan \/ zi = infinity \/ zi = neg_infinity) /\
    forall (M : Type) (CM : Classifier M) (model : M),
      score degenerate_scaler model (X default_form 24%float) =
      (label <- predict model z ;;
       row <- predict_proba model z ;;
       Ok {| X_scaled := z; prediction := label;
             prob := (snd row * 100)%float |}).
Proof.
  apply (zero_scale_divides degenerate_scaler (X default_form 24%float) 0 0%float);
    reflexivity.
Defined.

(** ** The probability shown *)

Lemma X_has_no_infinity (f : Form) (bmi : float) :
  in_widget_ranges f -> is_infinity bmi = false ->
  existsb is_infinity (X f bmi) = false.
Proof.
  intros (Ha & _ & _ & Hc & Ht & Hs & Hd & Hh & Hg) Hb.
  assert (Hfin : forall n, 0 <= n <= 400 -> is_infinity (float_of_int n) = false).
  { intros n Hn. pose proof (int_is_finite_0_400 n Hn) as H.
    unfold int_is_finite in H. apply negb_true_iff in H. exact H. }
  assert (Hflag : forall b : bool,
            is_infinity (float_of_int (if b then 1 else 0)) = false)
    by (intros [|]; vm_compute; reflexivity).
  unfold X, male_val, currentSmoker_val, diabetes_val, prevalentHyp_val.
  cbn [existsb]. rewrite Hb, !Hflag, !Hfin by lia. reflexivity.
Qed.

Section Contract.

Context {S M : Type} `{Scaler S} `{Classifier M}.
Variable scaler : S.
Variable model : M.

(** C3: for a form within the bounds of its inputs and a pair of artifacts
    that keeps its contract on the feature vectors of such forms, the run
    returns, and the percentage it shows lies between 0 and 100 and is
    neither a NaN nor an infinity. *)
Theorem submit_prob_in_0_100 (now : string) (f : Form)
    (history : list HistoryEntry) :
  valid_artifacts scaler model ->
  in_widget_ranges f ->
  exists hist rep,
    submit scaler model now f history = Ok (hist, rep) /\
    (0 <=? shown_prob rep)%float = true /\
    (shown_prob rep <=? 100)%float = true /\
    is_nan (shown_prob rep) = false /\
    is_infinity (shown_prob rep) = false.
Proof.
  intros Hv Hf.
  pose proof Hf as (_ & Hh & Hw & _).
  pose proof (BMI_is_finite_in_ranges _ _ Hh Hw) as Hb.
  unfold BMI_is_finite in Hb.
  destruct (BMI (height f) (weight f)) as [bmi|e] eqn:Hbmi; [|discriminate].
  assert (Hx : features f = Ok (X f bmi))
    by (unfold features; rewrite Hbmi; reflexivity).
  destruct (Hv (X f bmi) (ex_intro _ f (conj Hf Hx)))
    as (xs & Hxs & [label Hlabel] & (p0 & p1 & Hrow & Hge & Hle)).
  unfold submit. rewrite Hx. cbn [bind]. unfold score. rewrite Hxs. cbn [bind].
  rewrite Hlabel. cbn [bind]. rewrite Hrow. cbn [bind prob snd].
  destruct (mul_100_bounds p1 Hge Hle) as [Hlo Hhi].
  destruct (between_0_100_finite _ Hlo Hhi) as [Hnan Hinf].
  eexists. eexists. split; [reflexivity|]. cbn [report snd shown_prob].
  repeat split; assumption.
Qed.

End Contract.

Lemma default_form_in_ranges : in_widget_ranges default_form.
Proof. unfold in_widget_ranges. simpl. lia. Qed.

(** ** The feature row *)

(** The row is handed to the scaler as built, and the scaled row to both
    calls on the model. *)
Lemma score_passes_row {S M : Type} `{Scaler S} `{Classifier M}
    (scaler : S) (model : M) (x : list float) (s : Scored) :
  score scaler model x = Ok s ->
  transform scaler x = Ok (X_scaled s) /\
  predict model (X_scaled s) = Ok (prediction s) /\
  exists row, predict_proba model (X_scaled s) = Ok row /\
    prob s = (snd row * 100)%float.
Proof.
  unfold score.
  destruct (transform scaler x) as [xs|e]; simpl; [|discriminate].
  destruct (predict model xs) as [label|e] eqn:Hl; simpl; [|discriminate].
  destruct (predict_proba model xs) as [row|e] eqn:Hr; simpl; [|discriminate].
  intros [= <-]. simpl. repeat split; try assumption.
  exists row. split; [assumption|reflexivity].
Qed.

(** ** The cigarettes input *)

Lemma cigs_widget_in_range (cs : string) (e1 e2 : option Z) :
  0 <= cigs_widget cs e1 e2 <= 100.
Proof.
  unfold cigs_widget, number_input.
  destruct (cs =? "Yes")%string; [destruct e1 | destruct e2]; lia.
Qed.

Lemma cigs_widget_default_non_smoker (e1 : option Z) :
  cigs_widget "No" e1 None = 0.
Proof. reflexivity. Qed.

(** C8 (fails): with "Current Smoker?" on "No" the cigarettes input still
    takes any value from 0 to 100; entering 20 gives a form within the
    bounds of its inputs whose row has smoker flag 0 and 20 cigarettes. *)
Theorem non_smoker_cigs_not_forced :
  cigs_widget "No" None (Some 20) = 20 /\
  currentSmoker non_smoker_20_form = "No"%string /\
  cigsPerDay non_smoker_20_form = 20 /\
  in_widget_ranges non_smoker_20_form /\
  exists bmi, features non_smoker_20_form = Ok (X non_smoker_20_form bmi) /\
    nth_error (X non_smoker_20_form bmi) 2 = Some 0%float /\
    nth_error (X non_smoker_20_form bmi) 3 = Some 20%float.
Proof.
  split; [reflexivity|]. split; [reflexivity|]. split; [reflexivity|].
  split; [unfold in_widget_ranges; repeat split; vm_compute; discriminate|].
  eexists. split; [vm_compute; reflexivity|]. split; vm_compute; reflexivity.
Qed.

(** ** What the result depends on *)

Section Dependence.

Context {S M : Type} `{Scaler S} `{Classifier M}.
Variable scaler : S.

(** C9: two forms that give the same feature row (and the same age, which
    the history entry records) give the same run, whatever their exercise
    frequency, family history and medications. *)
Theorem submit_ignores_extras (model : M) (now : string)
    (history : list HistoryEntry) (f1 f2 : Form) :
  features f1 = features f2 ->
  age f1 = age f2 ->
  submit scaler model now f1 history = submit scaler model now f2 history.
Proof.
  intros Hx Ha. unfold submit. rewrite Hx.
  destruct (features f2) as [x|e]; simpl; [|reflexivity].
  destruct (score scaler model x) as [s|e]; simpl; [|reflexivity].
  unfold report. rewrite Ha. reflexivity.
Qed.

(** C10: two models with the same [predict_proba] whose [predict] differs
    only in the label it returns give the same run: the same probability,
    tiers, recommendations and history entry. *)
Theorem submit_ignores_label (m1 m2 : M) (now : string)
    (history : list HistoryEntry) (f : Form) :
  (forall xs, predict_proba m1 xs = predict_proba m2 xs) ->
  (forall xs, same_but_label (predict m1 xs) (predict m2 xs)) ->
  submit scaler m1 now f history = submit scaler m2 now f history.
Proof.
  intros Hp Hl. unfold submit.
  destruct (features f) as [x|e]; simpl; [|reflexivity].
  unfold score.
  destruct (transform scaler x) as [xs|e]; simpl; [|reflexivity].
  specialize (Hl xs). specialize (Hp xs). unfold same_but_label in Hl.
  destruct (predict m1 xs) as [l1|e1], (predict m2 xs) as [l2|e2];
    simpl; try contradiction; [|congruence].
  rewrite Hp. destruct (predict_proba m2 xs); reflexivity.
Qed.

End Dependence.

(** The three extra answers are no part of the row. *)
Lemma features_ignore_extras (f : Form) (ex fh : string) (med : list string) :
  features {| age := age f; male := male f; height := height f;
              weight := weight f; currentSmoker := currentSmoker f;
              cigsPerDay := cigsPerDay f;
              exercise_frequency := ex; family_history := fh;
              totChol := totChol f; sysBP := sysBP f; diaBP := diaBP f;
              heartRate := heartRate f; glucose := glucose f;
              diabetes := diabetes f; prevalentHyp := prevalentHyp f;
              medications := med |} = features f.
Proof. reflexivity. Qed.

Lemma submit_ignores_extras_witness :
  default_form <> default_form_extras /\
  submit unit_scaler coin_model "2025-01-01 00:00" default_form [] =
  submit unit_scaler coin_model "2025-01-01 00:00" default_form_extras [].
Proof.
  split; [discriminate|].
  apply (submit_ignores_extras unit_scaler coin_model); reflexivity.
Defined.

Lemma submit_ignores_label_witness :
  submit unit_scaler {| fixed_label := 0; fixed_proba := (0.25, 0.75)%float |}
         "2025-01-01 00:00" default_form [] =
  submit unit_scaler {| fixed_label := 1; fixed_proba := (0.25, 0.75)%float |}
         "2025-01-01 00:00" default_form [].
Proof.
  apply (submit_ignores_label unit_scaler); intros xs; [reflexivity|exact I].
Defined.

(** ** The two tier paths side by side *)

Lemma Prim2SF_20 : Prim2SF 20 = S754_finite false 5629499534213120 (-48).
Proof. vm_compute. reflexivity. Qed.

Lemma Prim2SF_50 : Prim2SF 50 = S754_finite false 7036874417766400 (-47).
Proof. vm_compute. reflexivity. Qed.

Lemma Prim2SF_35 : Prim2SF 35 = S754_finite false 4925812092436480 (-47).
Proof. vm_compute. reflexivity. Qed.

Lemma is_nan_SF (p : float) : is_nan p = negb (SFeqb (Prim2SF p) (Prim2SF p)).
Proof. unfold is_nan. rewrite eqb_spec. reflexivity. Qed.


(** The tiers of the two paths on a value [x], with thresholds [c20 < c50]
    given by sign, mantissa and exponent. *)
Lemma tiers_agree_SF (x : spec_float) (m20 m50 : positive) (e20 e50 : Z) :
  e20 < e50 ->
  ((if SFltb x (S754_finite false m20 e20) then Low
    else if SFltb x (S754_finite false m50 e50) then Moderate else High) =
   (if SFltb (S754_finite false m50 e50) x then High
    else if SFltb (S754_finite false m20 e20) x then Moderate else Low)) <->
  (SFeqb x (S754_finite false m20 e20) = false /\
   SFeqb x (S754_finite false m50 e50) = false /\
   negb (SFeqb x x) = false).
Proof.
  intros He. sf_cases x;
    (split; [intros ?; repeat split; try reflexivity; try discriminate; try lia
            | intros (? & ? & ?); try reflexivity; try discriminate; try lia]).
Qed.

Lemma history_below_display_SF (x : spec_float) (m20 m50 : positive) (e20 e50 : Z) :
  e20 < e50 ->
  (tier_rank (if SFltb (S754_finite false m50 e50) x then High
              else if SFltb (S754_finite false m20 e20) x then Moderate else Low)
   <= tier_rank (if SFltb x (S754_finite false m20 e20) then Low
                 else if SFltb x (S754_finite false m50 e50) then Moderate
                 else High))%nat.
Proof. intros He. sf_cases x; try lia. Qed.

Lemma tiers_agree_aux (p : float) :
  display_tier p = history_tier p <->
  (p =? 20)%float = false /\ (p =? 50)%float = false /\ is_nan p = false.
Proof.
  unfold display_tier, history_tier.
  rewrite !ltb_spec, !eqb_spec, is_nan_SF, Prim2SF_20, Prim2SF_50.
  apply tiers_agree_SF. lia.
Qed.

(** X1: the history entry and the result page give the same tier to a
    probability exactly when it is not 20.0, not 50.0 and not a NaN. *)
Theorem tiers_agree_iff (p : float) :
  display_tier p = history_tier p <->
  (p =? 20)%float = false /\ (p =? 50)%float = false /\ is_nan p = false.
Proof. exact (tiers_agree_aux p). Qed.

(** X2: the tier of the history entry is never above the tier shown on the
    result page. *)
Theorem history_tier_below_display (p : float) :
  (tier_rank (history_tier p) <= tier_rank (display_tier p))%nat.
Proof.
  unfold display_tier, history_tier.
  rewrite !ltb_spec, Prim2SF_20, Prim2SF_50.
  apply history_below_display_SF. lia.
Qed.

Lemma bar_gradient_history (p : float) :
  bar_gradient p = tier_gradient (history_tier p).
Proof.
  unfold bar_gradient, history_tier.
  destruct (50 <? p)%float; [reflexivity|].
  destruct (20 <? p)%float; reflexivity.
Qed.

Lemma tier_gradient_inj (t1 t2 : Tier) :
  tier_gradient t1 = tier_gradient t2 -> t1 = t2.
Proof. destruct t1, t2; simpl; intros H; try reflexivity; discriminate. Qed.

Lemma bar_under_label_SF (x : spec_float) (m20 m50 : positive) (e20 e50 : Z) :
  e20 < e50 ->
  let c20 := S754_finite false m20 e20 in
  let c50 := S754_finite false m50 e50 in
  (SFeqb x c20 = true ->
   SFltb c50 x = false /\ SFltb c20 x = false /\
   SFltb x c20 = false /\ SFltb x c50 = true) /\
  (SFeqb x c50 = true ->
   SFltb c50 x = false /\ SFltb c20 x = true /\
   SFltb x c20 = false /\ SFltb x c50 = false) /\
  (negb (SFeqb x x) = true ->
   SFltb c50 x = false /\ SFltb c20 x = false /\
   SFltb x c20 = false /\ SFltb x c50 = false).
Proof.
  intros He c20 c50. subst c20 c50.
  sf_cases x; repeat split; intros; try reflexivity; try discriminate; try lia.
Qed.

(** X3: the fallback bar (line 492) has the colour of the tier written
    under it (lines 507-533) exactly when the probability is not 20.0, not
    50.0 and not a NaN.  At 20.0 the bar is green over the label Moderate,
    at 50.0 yellow over the label High, and at a NaN green over the label
    High. *)
Theorem bar_matches_label_iff (p : float) :
  (bar_gradient p = tier_gradient (display_tier p) <->
   (p =? 20)%float = false /\ (p =? 50)%float = false /\ is_nan p = false) /\
  ((p =? 20)%float = true ->
   bar_gradient p = tier_gradient Low /\ display_tier p = Moderate) /\
  ((p =? 50)%float = true ->
   bar_gradient p = tier_gradient Moderate /\ display_tier p = High) /\
  (is_nan p = true ->
   bar_gradient p = tier_gradient Low /\ display_tier p = High).
Proof.
  split.
  - rewrite bar_gradient_history, <- tiers_agree_aux. split.
    + intros H. symmetry. apply tier_gradient_inj. exact H.
    + intros H. rewrite H. reflexivity.
  - unfold bar_gradient, display_tier.
    rewrite !ltb_spec, !eqb_spec, is_nan_SF, Prim2SF_20, Prim2SF_50.
    destruct (bar_under_label_SF (Prim2SF p) 5629499534213120 7036874417766400
                (-48) (-47) ltac:(lia)) as (H20 & H50 & Hnan).
    split; [|split]; intros Hc;
      [destruct (H20 Hc) as (-> & -> & -> & ->)
      |destruct (H50 Hc) as (-> & -> & -> & ->)
      |destruct (Hnan Hc) as (-> & -> & -> & ->)]; split; reflexivity.
Qed.

(** ** Relative risk against the tier *)

Lemma relative_risk_SF (x : spec_float) (m20 m35 m50 : positive) (e20 e50 : Z) :
  e20 < e50 -> Zpos m35 < Zpos m50 ->
  (SFltb x (S754_finite false m20 e20) = true ->
   SFltb (S754_finite false m35 e50) x = false) /\
  (SFltb x (S754_finite false m20 e20) = false ->
   SFltb x (S754_finite false m50 e50) = false ->
   negb (SFeqb x x) = false ->
   SFltb (S754_finite false m35 e50) x = true).
Proof. intros He Hm. sf_cases x; split; intros; try reflexivity; try discriminate; try lia. Qed.

(** X4: a probability in the Low tier of the page is shown with relative
    risk "Average", and one in its High tier, unless it is a NaN, with
    relative risk "High". *)
Theorem relative_risk_follows_tier (p : float) :
  (display_tier p = Low -> relative_risk p = "Average"%string) /\
  (display_tier p = High -> is_nan p = false ->
   relative_risk p = "High"%string).
Proof.
  unfold display_tier, relative_risk.
  rewrite !ltb_spec, is_nan_SF, Prim2SF_20, Prim2SF_50, Prim2SF_35.
  assert (Hm : Zpos 4925812092436480 < Zpos 7036874417766400) by reflexivity.
  revert Hm. generalize 4925812092436480%positive 7036874417766400%positive
    5629499534213120%positive. intros m35 m50 m20 Hm.
  destruct (relative_risk_SF (Prim2SF p) m20 m35 m50 (-48) (-47)) as [Hlow Hhigh];
    [lia|exact Hm|].
  split.
  - destruct (SFltb (Prim2SF p) (S754_finite false m20 (-48))) eqn:H20.
    + intros _. rewrite (Hlow eq_refl). reflexivity.
    + destruct (SFltb (Prim2SF p) (S754_finite false m50 (-47))); discriminate.
  - destruct (SFltb (Prim2SF p) (S754_finite false m20 (-48))) eqn:H20;
      [discriminate|].
    destruct (SFltb (Prim2SF p) (S754_finite false m50 (-47))) eqn:H50;
      [discriminate|].
    intros _ Hnan. rewrite (Hhigh eq_refl eq_refl Hnan). reflexivity.
Qed.

Lemma relative_risk_follows_tier_witness :
  relative_risk 10 = "Average"%string /\ relative_risk 80 = "High"%string.
Proof.
  split.
  - apply (proj1 (relative_risk_follows_tier 10)). vm_compute. reflexivity.
  - apply (proj2 (relative_risk_follows_tier 80)); vm_compute; reflexivity.
Defined.

(** ** The history over a session *)

Lemma df_tail_suffix {A : Type} (n : nat) (l : list A) :
  exists older, l = older ++ df_tail n l /\
    List.length (df_tail n l) = Nat.min n (List.length l).
Proof.
  unfold df_tail. exists (firstn (List.length l - n) l). split.
  - symmetry. apply firstn_skipn.
  - rewrite length_skipn. lia.
Qed.

(** X5: the sidebar writes "No predictions made yet." exactly when the
    history is empty or absent; otherwise its table holds the timestamp and
    percentage of the last entries, at most five, in the order they were
    stored. *)
Theorem sidebar_shows_last_five (st : SessionState) :
  match snd (sidebar st) with
  | NoPredictions => history_of st = []
  | HistoryTable rows =>
      history_of st <> [] /\
      List.length rows = Nat.min 5 (List.length (history_of st)) /\
      exists older,
        map (fun e => (timestamp e, risk_percentage e)) (history_of st) =
        older ++ rows
  end.
Proof.
  unfold sidebar, history_of.
  destruct (prediction_history st) as [[|e h]|]; cbn [snd]; try reflexivity.
  split; [discriminate|].
  destruct (df_tail_suffix 5
              (map (fun e => (timestamp e, risk_percentage e)) (e :: h)))
    as (older & Heq & Hlen).
  split.
  - rewrite Hlen, length_map. reflexivity.
  - exists older. exact Heq.
Qed.

(** X6: the sidebar reads the timestamps and percentages only: two
    histories that agree on them give the same sidebar, whatever ages and
    risk levels their entries hold. *)
Theorem sidebar_ignores_risk_level (st1 st2 : SessionState) :
  map (fun e => (timestamp e, risk_percentage e)) (history_of st1) =
  map (fun e => (timestamp e, risk_percentage e)) (history_of st2) ->
  snd (sidebar st1) = snd (sidebar st2).
Proof.
  unfold sidebar, history_of.
  destruct (prediction_history st1) as [h1|], (prediction_history st2) as [h2|];
    simpl snd; intros Hmap.
  - destruct h1 as [|a1 h1], h2 as [|a2 h2]; try discriminate; try reflexivity.
    rewrite Hmap. reflexivity.
  - destruct h1; [reflexivity|discriminate].
  - destruct h2; [reflexivity|discriminate].
  - reflexivity.
Qed.

Lemma sidebar_ignores_risk_level_witness :
  snd (sidebar {| prediction_history :=
                    Some [ {| timestamp := "2025-01-01 00:00"; entry_age := 50;
                              risk_percentage := 50%float;
                              risk_level := "Moderate" |} ] |}) =
  snd (sidebar {| prediction_history :=
                    Some [ {| timestamp := "2025-01-01 00:00"; entry_age := 61;
                              risk_percentage := 50%float;
                              risk_level := "High" |} ] |}).
Proof. apply sidebar_ignores_risk_level. reflexivity. Defined.

Lemma submit_appends {S M : Type} `{Scaler S} `{Classifier M}
    (scaler : S) (model : M) (now : string) (f : Form)
    (history history' : list HistoryEntry) (rep : Report) :
  submit scaler model now f history = Ok (history', rep) ->
  exists e, history' = history ++ [e] /\
    timestamp e = now /\ risk_percentage e = shown_prob rep.
Proof.
  unfold submit.
  destruct (features f) as [x|e]; simpl; [|discriminate].
  destruct (score scaler model x) as [s|e]; simpl; [|discriminate].
  unfold report. intros [= <- <-].
  eexists. split; [reflexivity|]. split; reflexivity.
Qed.

(** The probabilities shown by the runs that scored, in order. *)
Lemma history_of_sidebar (st : SessionState) :
  history_of (fst (sidebar st)) = history_of st.
Proof. unfold sidebar, history_of. destruct (prediction_history st); reflexivity. Qed.

Lemma last_skipn {A : Type} (d : A) (l : list A) : forall k : nat,
  (k < List.length l)%nat -> last (skipn k l) d = last l d.
Proof.
  induction l as [|a l IH]; intros k Hk; [simpl in Hk; lia|].
  destruct k as [|k]; [reflexivity|].
  simpl in Hk. simpl skipn. rewrite IH by lia.
  destruct l; [simpl in Hk; lia|reflexivity].
Qed.

Lemma sidebar_rows_last (st : SessionState) (h : list HistoryEntry)
    (e : HistoryEntry) :
  history_of st = h ++ [e] ->
  exists rows,
    snd (sidebar st) = HistoryTable rows /\
    last rows (EmptyString, 0%float) = (timestamp e, risk_percentage e).
Proof.
  unfold sidebar, history_of. intros Hh.
  destruct (prediction_history st) as [h0|]; [|destruct h; discriminate].
  subst h0. simpl snd.
  destruct (h ++ [e]) as [|a l] eqn:Hl; [destruct h; discriminate|].
  rewrite <- Hl. eexists. split; [reflexivity|].
  unfold df_tail. rewrite last_skipn.
  - rewrite map_app. simpl. apply last_last.
  - rewrite length_map, length_app. simpl. lia.
Qed.

Section Sessions.

Context {S M : Type} `{Scaler S} `{Classifier M}.
Variable scaler : S.
Variable model : M.

Lemma script_run_history (st : SessionState) (r : Run) :
  history_of (fst (script_run scaler model st r)) =
  history_of st ++
  match page_result (snd (script_run scaler model st r)) with
  | Some (Ok rep) =>
      [ {| timestamp := run_now r; entry_age := age (run_form r);
           risk_percentage := shown_prob rep;
           risk_level := history_label (history_tier (shown_prob rep)) |} ]
  | _ => []
  end.
Proof.
  unfold script_run.
  pose proof (history_of_sidebar st) as Hs.
  destruct (sidebar st) as [st1 view]. simpl fst in Hs.
  destruct (BMI (height (run_form r)) (weight (run_form r))) as [b|e];
    [|simpl; rewrite Hs, app_nil_r; reflexivity].
  destruct (run_submit r); [|simpl; rewrite Hs, app_nil_r; reflexivity].
  unfold submit.
  destruct (features (run_form r)) as [x|e];
    [|simpl; rewrite Hs, app_nil_r; reflexivity].
  cbn [bind].
  destruct (score scaler model x) as [s|e];
    [|simpl; rewrite Hs, app_nil_r; reflexivity].
  simpl. rewrite Hs. reflexivity.
Qed.

(** X7: over a session the history only grows at its end: it is the history
    the session started from followed by one entry for each run that
    scored, holding the probability that run showed, in the order of the
    runs; a run that did not submit or that raised adds nothing. *)
Theorem session_history_appends (runs : list Run) : forall st : SessionState,
  List.length (snd (session scaler model st runs)) = List.length runs /\
  exists added,
    history_of (fst (session scaler model st runs)) = history_of st ++ added /\
    map risk_percentage added =
    flat_map (fun p => match page_result p with
                       | Some (Ok rep) => [shown_prob rep]
                       | _ => []
                       end) (snd (session scaler model st runs)).
Proof.
  induction runs as [|r runs IH]; intros st.
  - simpl. split; [reflexivity|]. exists []. rewrite app_nil_r. split; reflexivity.
  - simpl session.
    pose proof (script_run_history st r) as Hr.
    destruct (script_run scaler model st r) as [st1 page].
    simpl fst in Hr; simpl snd in Hr.
    destruct (IH st1) as (Hlen & added & Hhist & Hmap).
    destruct (session scaler model st1 runs) as [st2 pages].
    simpl fst in *; simpl snd in *.
    split; [simpl; rewrite Hlen; reflexivity|].
    eexists. split.
    + rewrite Hhist, Hr, <- app_assoc. reflexivity.
    + rewrite map_app, Hmap. simpl flat_map. f_equal.
      destruct (page_result page) as [[rep|e]|]; reflexivity.
Qed.

(** X8: the sidebar of a run is drawn before the submission is handled: it
    shows the history the run started from, so a run that scores does not
    list its own entry; the run after it does, as the last row. *)
Theorem sidebar_lags_one_run (st : SessionState) (r r' : Run) (rep : Report) :
  page_result (snd (script_run scaler model st r)) = Some (Ok rep) ->
  page_sidebar (snd (script_run scaler model st r)) = snd (sidebar st) /\
  exists rows,
    page_sidebar
      (snd (script_run scaler model (fst (script_run scaler model st r)) r')) =
    HistoryTable rows /\
    last rows (EmptyString, 0%float) = (run_now r, shown_prob rep).
Proof.
  intros Hres. split.
  - unfold script_run. destruct (sidebar st) as [st1 view].
    destruct (BMI _ _); [|reflexivity].
    destruct (run_submit r); [|reflexivity].
    destruct (submit _ _ _ _ _) as [[h rp]|e]; reflexivity.
  - pose proof (script_run_history st r) as Hh. rewrite Hres in Hh.
    set (st1 := fst (script_run scaler model st r)) in *.
    assert (Hside : page_sidebar (snd (script_run scaler model st1 r')) =
                    snd (sidebar st1)).
    { unfold script_run. destruct (sidebar st1) as [st2 view].
      destruct (BMI _ _); [|reflexivity].
      destruct (run_submit r'); [|reflexivity].
      destruct (submit _ _ _ _ _) as [[h rp]|e]; reflexivity. }
    rewrite Hside.
    destruct (sidebar_rows_last st1 _ _ Hh) as (rows & Hrows & Hlast).
    exists rows. split; [exact Hrows|exact Hlast].
Qed.

End Sessions.

Lemma sidebar_lags_one_run_witness :
  let st := {| prediction_history := None |} in
  let r := {| run_now := "2025-01-01 00:00"; run_form := default_form;
              run_submit := true |} in
  page_sidebar (snd (script_run unit_scaler coin_model st r)) = NoPredictions /\
  exists rows,
    page_sidebar
      (snd (script_run unit_scaler coin_model
              (fst (script_run unit_scaler coin_model st r)) r)) =
    HistoryTable rows /\
    last rows (EmptyString, 0%float) = ("2025-01-01 00:00"%string, 50%float).
Proof.
  cbv zeta.
  apply (sidebar_lags_one_run unit_scaler coin_model
           {| prediction_history := None |}
           {| run_now := "2025-01-01 00:00"; run_form := default_form;
              run_submit := true |}
           {| run_now := "2025-01-01 00:00"; run_form := default_form;
              run_submit := true |}
           (snd (report "2025-01-01 00:00" default_form [] 50%float))).
  vm_compute. reflexivity.
Defined.

(** ** BMI over the form's ranges *)

Lemma SFltb_trans (x y z : spec_float) :
  SFltb x y = true -> SFltb y z = true -> SFltb x z = true.
Proof. destruct x, y, z; sf_order. Qed.

Lemma SFleb_trans (x y z : spec_float) :
  SFleb x y = true -> SFleb y z = true -> SFleb x z = true.
Proof. destruct x, y, z; sf_order. Qed.

Lemma SFltb_leb (x y : spec_float) :
  SFltb x y = true -> SFleb x y = true /\ SFleb x x = true /\ SFleb y y = true.
Proof.
  unfold SFltb, SFleb, SFcompare.
  change (Pos.compare_cont Eq) with Pos.compare.
  destruct x as [[|]|[|]| |[|] ? ?], y as [[|]|[|]| |[|] ? ?];
    rewrite ?Z.compare_refl, ?Pos.compare_refl; cmp_cases;
    intros; repeat split; try reflexivity; try discriminate; try lia.
Qed.

Lemma ltb_trans (x y z : float) :
  (x <? y)%float = true -> (y <? z)%float = true -> (x <? z)%float = true.
Proof. rewrite !ltb_spec. apply SFltb_trans. Qed.

Lemma leb_trans (x y z : float) :
  (x <=? y)%float = true -> (y <=? z)%float = true -> (x <=? z)%float = true.
Proof. rewrite !leb_spec. apply SFleb_trans. Qed.

Lemma ltb_leb (x y : float) :
  (x <? y)%float = true ->
  (x <=? y)%float = true /\ (x <=? x)%float = true /\ (y <=? y)%float = true.
Proof. rewrite ltb_spec, !leb_spec. apply SFltb_leb. Qed.

Lemma In_Zrange (lo hi z : Z) : lo <= z <= hi -> In z (Zrange lo hi).
Proof.
  intros Hz. unfold Zrange. apply in_map_iff. exists (Z.to_nat (z - lo)).
  split; [lia|]. apply in_seq. lia.
Qed.

Lemma BMI_is_value (h w : Z) :
  100 <= h <= 250 -> BMI h w = Ok (BMI_value h w).
Proof.
  intros Hh. rewrite BMI_unfold.
  pose proof (BMI_divisor_nonzero_in_range h Hh) as Hnz.
  unfold BMI_divisor_nonzero in Hnz.
  rewrite negb_true_iff in Hnz. rewrite Hnz. reflexivity.
Qed.

Lemma weights_check_true : weights_check = true.
Proof. vm_compute. reflexivity. Qed.

Lemma heights_check_true : heights_check = true.
Proof. vm_compute. reflexivity. Qed.

Lemma forallb2_In {A B : Type} (P : A -> B -> bool) (la : list A) (lb : list B) :
  forallb2 P la lb = true ->
  forall a b, In a la -> In b lb -> P a b = true.
Proof.
  unfold forallb2. intros H a b Ha Hb. rewrite forallb_forall in H.
  specialize (H a Ha). rewrite forallb_forall in H. exact (H b Hb).
Qed.

Lemma BMI_grows_with_weight_step (h w : Z) :
  100 <= h <= 250 -> 30 <= w <= 299 ->
  (BMI_value h w <? BMI_value h (w + 1))%float = true.
Proof.
  intros Hh Hw.
  exact (forallb2_In
           (fun (d : float) (ab : float * float) =>
              (fst ab / d <? snd ab / d)%float)
           (map BMI_divisor (Zrange 100 250))
           (map (fun w => (float_of_int w, float_of_int (w + 1))) (Zrange 30 299))
           weights_check_true
           (BMI_divisor h) (float_of_int w, float_of_int (w + 1))
           (in_map BMI_divisor _ _ (In_Zrange _ _ _ Hh))
           (in_map (fun w => (float_of_int w, float_of_int (w + 1))) _ _
              (In_Zrange _ _ _ Hw))).
Qed.

Lemma BMI_falls_with_height_step (w h : Z) :
  30 <= w <= 300 -> 100 <= h <= 249 ->
  (BMI_value (h + 1) w <? BMI_value h w)%float = true.
Proof.
  intros Hw Hh.
  exact (forallb2_In
           (fun (x : float) (dd : float * float) =>
              (x / snd dd <? x / fst dd)%float)
           (map float_of_int (Zrange 30 300))
           (map (fun h => (BMI_divisor h, BMI_divisor (h + 1))) (Zrange 100 249))
           heights_check_true
           (float_of_int w) (BMI_divisor h, BMI_divisor (h + 1))
           (in_map float_of_int _ _ (In_Zrange _ _ _ Hw))
           (in_map (fun h => (BMI_divisor h, BMI_divisor (h + 1))) _ _
              (In_Zrange _ _ _ Hh))).
Qed.

(** A function that grows at every step grows over any stretch. *)
Lemma steps_ltb (g : Z -> float) (lo hi : Z) :
  (forall z, lo <= z < hi -> (g z <? g (z + 1)%Z)%float = true) ->
  forall a b, lo <= a -> a < b -> b <= hi -> (g a <? g b)%float = true.
Proof.
  intros Hstep a b Ha Hab Hb.
  replace b with (a + 1 + Z.of_nat (Z.to_nat (b - a - 1))) in * by lia.
  generalize dependent (Z.to_nat (b - a - 1)). intros n.
  induction n as [|n IH]; intros Hab Hb.
  - rewrite Z.add_0_r. apply Hstep. lia.
  - apply ltb_trans with (g (a + 1 + Z.of_nat n)).
    + apply IH; lia.
    + replace (a + 1 + Z.of_nat (S n)) with (a + 1 + Z.of_nat n + 1) by lia.
      apply Hstep. lia.
Qed.

Lemma BMI_value_weight_ltb (h w w' : Z) :
  100 <= h <= 250 -> 30 <= w -> w < w' -> w' <= 300 ->
  (BMI_value h w <? BMI_value h w')%float = true.
Proof.
  intros Hh Hw Hlt Hw'.
  apply (steps_ltb (BMI_value h) 30 300); try lia.
  intros z Hz. apply BMI_grows_with_weight_step; lia.
Qed.

Lemma BMI_value_height_ltb (w h h' : Z) :
  30 <= w <= 300 -> 100 <= h -> h < h' -> h' <= 250 ->
  (BMI_value h' w <? BMI_value h w)%float = true.
Proof.
  intros Hw Hh Hlt Hh'.
  assert (Hstep : forall z, -250 <= z < -100 ->
            (BMI_value (- z) w <? BMI_value (- (z + 1)) w)%float = true).
  { intros z Hz. pose proof (BMI_falls_with_height_step w (- z - 1)) as Hf.
    replace (- z - 1 + 1) with (- z) in Hf by lia.
    replace (- (z + 1)) with (- z - 1) by lia. apply Hf; lia. }
  pose proof (steps_ltb (fun z => BMI_value (- z) w) (-250) (-100) Hstep
                (- h') (- h)) as Hres.
  simpl in Hres. rewrite !Z.opp_involutive in Hres. apply Hres; lia.
Qed.

Lemma BMI_value_leb_refl (h w : Z) :
  100 <= h <= 250 -> 30 <= w <= 300 ->
  (BMI_value h w <=? BMI_value h w)%float = true.
Proof.
  intros Hh Hw. destruct (Z.eq_dec w 300) as [->|Hne].
  - apply (ltb_leb (BMI_value h 299) (BMI_value h 300)).
    apply BMI_value_weight_ltb; lia.
  - apply (ltb_leb (BMI_value h w) (BMI_value h 300)).
    apply BMI_value_weight_ltb; lia.
Qed.

Lemma BMI_value_weight_leb (h w w' : Z) :
  100 <= h <= 250 -> 30 <= w -> w <= w' -> w' <= 300 ->
  (BMI_value h w <=? BMI_value h w')%float = true.
Proof.
  intros Hh Hw Hle Hw'. destruct (Z.eq_dec w w') as [->|Hne].
  - apply BMI_value_leb_refl; lia.
  - apply ltb_leb. apply BMI_value_weight_ltb; lia.
Qed.

Lemma BMI_value_height_leb (w h h' : Z) :
  30 <= w <= 300 -> 100 <= h -> h <= h' -> h' <= 250 ->
  (BMI_value h' w <=? BMI_value h w)%float = true.
Proof.
  intros Hw Hh Hle Hh'. destruct (Z.eq_dec h h') as [->|Hne].
  - apply BMI_value_leb_refl; lia.
  - apply ltb_leb. apply BMI_value_height_ltb; lia.
Qed.

(** X9: over the heights and weights the form allows, the BMI of line 351
    grows strictly with the weight at a given height and falls strictly
    with the height at a given weight, rounding included. *)
Theorem BMI_monotone (h h' w w' : Z) :
  100 <= h -> h <= h' -> h' <= 250 -> 30 <= w -> w <= w' -> w' <= 300 ->
  exists b1 b2 b3,
    BMI h w = Ok b1 /\ BMI h w' = Ok b2 /\ BMI h' w = Ok b3 /\
    (w < w' -> (b1 <? b2)%float = true) /\
    (h < h' -> (b3 <? b1)%float = true).
Proof.
  intros H1 H2 H3 H4 H5 H6.
  exists (BMI_value h w), (BMI_value h w'), (BMI_value h' w).
  repeat split; try (apply BMI_is_value; lia).
  - intros Hlt. apply BMI_value_weight_ltb; lia.
  - intros Hlt. apply BMI_value_height_ltb; lia.
Qed.

Lemma BMI_monotone_witness :
  exists b1 b2 b3,
    BMI 170 70 = Ok b1 /\ BMI 170 71 = Ok b2 /\ BMI 171 70 = Ok b3 /\
    (70 < 71 -> (b1 <? b2)%float = true) /\
    (170 < 171 -> (b3 <? b1)%float = true).
Proof. apply (BMI_monotone 170 171 70 71); lia. Defined.

(** X10: for every height and weight the form allows the BMI lies between
    4.75 and 300. *)
Theorem BMI_bounds (h w : Z) :
  100 <= h <= 250 -> 30 <= w <= 300 ->
  exists b, BMI h w = Ok b /\
    (4.75 <=? b)%float = true /\ (b <=? 300)%float = true.
Proof.
  intros Hh Hw. exists (BMI_value h w).
  split; [apply BMI_is_value; exact Hh|]. split.
  - apply leb_trans with (BMI_value 250 30); [vm_compute; reflexivity|].
    apply leb_trans with (BMI_value h 30).
    + apply BMI_value_height_leb; lia.
    + apply BMI_value_weight_leb; lia.
  - apply leb_trans with (BMI_value 100 300); [|vm_compute; reflexivity].
    apply leb_trans with (BMI_value h 300).
    + apply BMI_value_weight_leb; lia.
    + apply BMI_value_height_leb; lia.
Qed.

Lemma BMI_bounds_witness :
  exists b, BMI 250 30 = Ok b /\
    (4.75 <=? b)%float = true /\ (b <=? 300)%float = true.
Proof. apply (BMI_bounds 250 30); lia. Defined.



(** ** Artifacts that keep the contract *)

Lemma column_scales_at (m s : float) (lo hi n : Z) :
  column_scales m s lo hi = true -> lo <= n <= hi ->
  finite_float (standardize (float_of_int n) m s) = true.
Proof.
  intros Hc Hn.
  apply (forallb_Zrange
           (fun n => finite_float (standardize (float_of_int n) m s)) lo hi Hc n Hn).
Qed.

Lemma BMI_column_scales_at (m s : float) (h w : Z) :
  BMI_column_scales m s = true -> 100 <= h <= 250 -> 30 <= w <= 300 ->
  finite_float (standardize (BMI_value h w) m s) = true.
Proof.
  intros Hc Hh Hw.
  exact (forallb2_In
           (fun (d w : float) => finite_float (standardize (w / d) m s))
           (map BMI_divisor (Zrange 100 250))
           (map float_of_int (Zrange 30 300))
           Hc (BMI_divisor h) (float_of_int w)
           (in_map BMI_divisor _ _ (In_Zrange _ _ _ Hh))
           (in_map float_of_int _ _ (In_Zrange _ _ _ Hw))).
Qed.

Lemma flag_in_0_1 (b : bool) : 0 <= (if b then 1 else 0) <= 1.
Proof. destruct b; lia. Qed.

(** A scaler that passes [scales_form_rows] answers on the row of every
    form within the bounds of the inputs, with 12 finite values. *)
Lemma scales_form_rows_checked (sc : StandardScaler) (f : Form) (bmi : float) :
  scales_form_rows sc = true ->
  in_widget_ranges f -> BMI (height f) (weight f) = Ok bmi ->
  exists xs, transform sc (X f bmi) = Ok xs /\ check_row 12 xs = true.
Proof.
  intros Hsc Hf Hbmi.
  pose proof Hf as (Ha & Hh & Hw & Hc & Ht & Hs & Hd & Hr & Hg).
  pose proof (BMI_is_finite_in_ranges _ _ Hh Hw) as Hfin.
  unfold BMI_is_finite in Hfin. rewrite Hbmi in Hfin.
  apply negb_true_iff in Hfin.
  pose proof (X_has_no_infinity f bmi Hf Hfin) as Hinf.
  rewrite (BMI_is_value _ (weight f) Hh) in Hbmi. injection Hbmi as <-.
  unfold scales_form_rows in Hsc.
  simpl transform. unfold StandardScaler_transform. rewrite Hinf.
  destruct (mean_ sc) as [|m0 [|m1 [|m2 [|m3 [|m4 [|m5 [|m6 [|m7 [|m8 [|m9
            [|m10 [|m11 [|? ?]]]]]]]]]]]]]; try discriminate Hsc.
  destruct (scale_ sc) as [|s0 [|s1 [|s2 [|s3 [|s4 [|s5 [|s6 [|s7 [|s8 [|s9
            [|s10 [|s11 [|? ?]]]]]]]]]]]]]; try discriminate Hsc.
  repeat rewrite andb_true_iff in Hsc.
  destruct Hsc as (((((((((((C0 & C1) & C2) & C3) & C4) & C5) & C6) & C7)
                      & C8) & C9) & C10) & C11).
  eexists. split; [reflexivity|].
  unfold check_row, X. cbn [standardize_row List.length Nat.eqb andb forallb].
  unfold male_val, currentSmoker_val, diabetes_val, prevalentHyp_val.
  rewrite (column_scales_at _ _ _ _ _ C0 Ha),
    (column_scales_at _ _ _ _ _ C1 (flag_in_0_1 _)),
    (column_scales_at _ _ _ _ _ C2 (flag_in_0_1 _)),
    (column_scales_at _ _ _ _ _ C3 Hc),
    (column_scales_at _ _ _ _ _ C4 Ht),
    (column_scales_at _ _ _ _ _ C5 Hs),
    (column_scales_at _ _ _ _ _ C6 Hd),
    (BMI_column_scales_at _ _ _ _ C7 Hh Hw),
    (column_scales_at _ _ _ _ _ C8 Hr),
    (column_scales_at _ _ _ _ _ C9 Hg),
    (column_scales_at _ _ _ _ _ C10 (flag_in_0_1 _)),
    (column_scales_at _ _ _ _ _ C11 (flag_in_0_1 _)).
  reflexivity.
Qed.

Lemma checked_pair_valid (sc : StandardScaler) (m : FixedClassifier) :
  scales_form_rows sc = true ->
  (0 <=? snd (fixed_proba m))%float = true ->
  (snd (fixed_proba m) <=? 1)%float = true ->
  valid_artifacts sc {| n_features_in_ := 12; estimator := m |}.
Proof.
  intros Hsc H0 H1 x (f & Hf & Hx).
  unfold features in Hx.
  destruct (BMI (height f) (weight f)) as [bmi|e] eqn:Hbmi; [|discriminate].
  injection Hx as <-.
  destruct (scales_form_rows_checked sc f bmi Hsc Hf Hbmi) as (xs & Hxs & Hck).
  exists xs. split; [exact Hxs|]. simpl. rewrite Hck. split.
  - eexists. reflexivity.
  - exists (fst (fixed_proba m)), (snd (fixed_proba m)).
    split; [destruct (fixed_proba m); reflexivity|]. split; assumption.
Qed.

Lemma sample_scaler_scales : scales_form_rows sample_scaler = true.
Proof. vm_compute. reflexivity. Qed.

Lemma submit_prob_in_0_100_witness :
  exists hist rep,
    submit sample_scaler checked_coin_model "2025-01-01 00:00" default_form []
      = Ok (hist, rep) /\
    (0 <=? shown_prob rep)%float = true /\
    (shown_prob rep <=? 100)%float = true /\
    is_nan (shown_prob rep) = false /\
    is_infinity (shown_prob rep) = false.
Proof.
  apply (submit_prob_in_0_100 sample_scaler checked_coin_model).
  - apply checked_pair_valid; [exact sample_scaler_scales|reflexivity|reflexivity].
  - exact default_form_in_ranges.
Defined.

(** ** The risk factor table *)

(** X11: the levels the table gives to age, cholesterol, blood pressure and
    BMI never go down when the value goes up (for blood pressure: when
    neither the systolic nor the diastolic value goes down). *)
Theorem risk_levels_monotone (age1 age2 chol1 chol2 sys1 sys2 dia1 dia2 : Z)
    (bmi1 bmi2 : float) :
  age1 <= age2 -> chol1 <= chol2 -> sys1 <= sys2 -> dia1 <= dia2 ->
  (bmi1 <=? bmi2)%float = true ->
  (level_rank (age_level age1) <= level_rank (age_level age2))%nat /\
  (level_rank (chol_level chol1) <= level_rank (chol_level chol2))%nat /\
  (level_rank (bp_level sys1 dia1) <= level_rank (bp_level sys2 dia2))%nat /\
  (level_rank (bmi_level bmi1) <= level_rank (bmi_level bmi2))%nat.
Proof.
  intros Ha Hc Hs Hd Hb.
  unfold age_level, chol_level, bp_level, bmi_level.
  rewrite !Z.gtb_ltb.
  repeat split.
  - destruct (Z.ltb_spec 65 age1), (Z.ltb_spec 65 age2),
      (Z.ltb_spec 45 age1), (Z.ltb_spec 45 age2); cbn; lia.
  - destruct (Z.ltb_spec 240 chol1), (Z.ltb_spec 240 chol2),
      (Z.ltb_spec 200 chol1), (Z.ltb_spec 200 chol2); cbn; lia.
  - destruct (Z.ltb_spec 140 sys1), (Z.ltb_spec 140 sys2),
      (Z.ltb_spec 90 dia1), (Z.ltb_spec 90 dia2),
      (Z.ltb_spec 120 sys1), (Z.ltb_spec 120 sys2); cbn; lia.
  - destruct (30 <? bmi1)%float eqn:H30.
    + rewrite (ltb_leb_trans _ _ _ H30 Hb). cbn. lia.
    + destruct (25 <? bmi1)%float eqn:H25.
      * rewrite (ltb_leb_trans _ _ _ H25 Hb).
        destruct (30 <? bmi2)%float; cbn; lia.
      * destruct (30 <? bmi2)%float; [cbn; lia|].
        destruct (25 <? bmi2)%float; cbn; lia.
Qed.

Lemma risk_levels_monotone_witness :
  (level_rank (age_level 40) <= level_rank (age_level 70))%nat /\
  (level_rank (chol_level 180) <= level_rank (chol_level 250))%nat /\
  (level_rank (bp_level 110 70) <= level_rank (bp_level 130 95))%nat /\
  (level_rank (bmi_level 22) <= level_rank (bmi_level 31))%nat.
Proof.
  apply (risk_levels_monotone 40 70 180 250 110 130 70 95 22 31);
    try lia; vm_compute; reflexivity.
Defined.

(** X12: the table and the model read the three yes/no answers alike: the
    table's level for gender, smoking and diabetes is the high one exactly
    when the entry of the row handed to the model is 1.0. *)
Theorem table_flags_match_row (f : Form) (bmi : float) :
  (nth_error (risk_factor_levels f bmi) 1 = Some "Higher"%string <->
   nth_error (X f bmi) 1 = Some 1%float) /\
  (nth_error (risk_factor_levels f bmi) 2 = Some "High"%string <->
   nth_error (X f bmi) 2 = Some 1%float) /\
  (nth_error (risk_factor_levels f bmi) 6 = Some "High"%string <->
   nth_error (X f bmi) 10 = Some 1%float).
Proof.
  unfold risk_factor_levels, X, gender_level, smoking_level, diabetes_level,
    male_val, currentSmoker_val, diabetes_val.
  cbn [nth_error].
  assert (H1 : float_of_int 1 = 1%float) by (vm_compute; reflexivity).
  assert (H0 : float_of_int 0 = 0%float) by (vm_compute; reflexivity).
  assert (Hne : Some 0%float <> Some 1%float) by discriminate.
  repeat split;
    match goal with
    | |- context [(?s =? ?t)%string] => destruct (s =? t)%string
    end; rewrite ?H1, ?H0; intros Hx; try reflexivity; try discriminate;
    exfalso; apply Hne; exact Hx.
Qed.

(** X13: at a given height, a weight that is not lower never gives a lower
    BMI level in the table, over the heights and weights the form allows. *)
Theorem bmi_level_grows_with_weight (h w w' : Z) :
  100 <= h <= 250 -> 30 <= w -> w <= w' -> w' <= 300 ->
  exists b b', BMI h w = Ok b /\ BMI h w' = Ok b' /\
    (level_rank (bmi_level b) <= level_rank (bmi_level b'))%nat.
Proof.
  intros Hh Hw Hww Hw'.
  exists (BMI_value h w), (BMI_value h w').
  split; [apply BMI_is_value; exact Hh|].
  split; [apply BMI_is_value; exact Hh|].
  assert (Hle : (BMI_value h w <=? BMI_value h w')%float = true)
    by (apply BMI_value_weight_leb; lia).
  unfold bmi_level.
  destruct (30 <? BMI_value h w)%float eqn:H30.
  - rewrite (ltb_leb_trans _ _ _ H30 Hle). cbn. lia.
  - destruct (25 <? BMI_value h w)%float eqn:H25.
    + rewrite (ltb_leb_trans _ _ _ H25 Hle).
      destruct (30 <? BMI_value h w')%float; cbn; lia.
    + destruct (30 <? BMI_value h w')%float; [cbn; lia|].
      destruct (25 <? BMI_value h w')%float; cbn; lia.
Qed.

Lemma bmi_level_grows_with_weight_witness :
  exists b b', BMI 170 70 = Ok b /\ BMI 170 90 = Ok b' /\
    (level_rank (bmi_level b) <= level_rank (bmi_level b'))%nat.
Proof. apply (bmi_level_grows_with_weight 170 70 90); lia. Defined.

(** ** The integers of the row *)

Lemma int_is_exact_0_400 (n : Z) : 0 <= n <= 400 -> int_is_exact n = true.
Proof.
  apply (forallb_Zrange int_is_exact 0 400). vm_compute. reflexivity.
Qed.

(** X14: for a form within the bounds of its inputs, the row is its eleven
    integers converted without rounding, with the BMI in eighth place. *)
Theorem X_row_is_exact (f : Form) (bmi : float) :
  in_widget_ranges f ->
  X f bmi = firstn 7 (map float_of_int (int_columns f)) ++ bmi ::
            skipn 7 (map float_of_int (int_columns f)) /\
  Forall (fun n => exists q, Q_of_float (float_of_int n) = Some q /\
                             (q == inject_Z n)%Q) (int_columns f).
Proof.
  intros (Ha & _ & _ & Hc & Ht & Hs & Hd & Hh & Hg).
  split; [reflexivity|].
  assert (Hex : forall n, 0 <= n <= 400 ->
            exists q, Q_of_float (float_of_int n) = Some q /\ (q == inject_Z n)%Q).
  { intros n Hn. pose proof (int_is_exact_0_400 n Hn) as H.
    unfold int_is_exact in H.
    destruct (Q_of_float (float_of_int n)) as [q|]; [|discriminate].
    exists q. split; [reflexivity|]. apply Qeq_bool_iff. exact H. }
  assert (Hflag : forall b : bool, 0 <= (if b then 1 else 0) <= 400)
    by (intros [|]; lia).
  unfold int_columns, male_val, currentSmoker_val, diabetes_val,
    prevalentHyp_val.
  repeat constructor; apply Hex; try apply Hflag; lia.
Qed.

Lemma X_row_is_exact_witness :
  X default_form 24%float =
    firstn 7 (map float_of_int (int_columns default_form)) ++ 24%float ::
    skipn 7 (map float_of_int (int_columns default_form)) /\
  Forall (fun n => exists q, Q_of_float (float_of_int n) = Some q /\
                             (q == inject_Z n)%Q) (int_columns default_form).
Proof.
  apply (X_row_is_exact default_form 24%float).
  unfold in_widget_ranges. simpl. lia.
Defined.

(** ** The training table *)

Lemma index_of_Some_In (name : string) (cols : list string) :
  (exists i, Train.index_of name cols = Some i) <-> In name cols.
Proof.
  induction cols as [|c cols IH]; simpl.
  - split; [intros [i Hi]; discriminate|intros []].
  - destruct (String.eqb_spec c name) as [->|Hne].
    + split; [intros _; left; reflexivity|intros _; exists 0%nat; reflexivity].
    + split.
      * intros [i Hi]. right. apply IH.
        destruct (Train.index_of name cols) as [j|]; [exists j; reflexivity|discriminate].
      * intros [Heq|Hin]; [contradiction|].
        apply IH in Hin. destruct Hin as [j Hj]. rewrite Hj.
        exists (S j). reflexivity.
Qed.

Lemma has_column_In (cols : list string) (name : string) :
  Train.has_column cols name = true <-> In name cols.
Proof.
  rewrite <- index_of_Some_In. unfold Train.has_column.
  destruct (Train.index_of name cols) as [i|].
  - split; [intros _; exists i; reflexivity|reflexivity].
  - split; [discriminate|intros [i Hi]; discriminate].
Qed.

(** After the selection of line 24 the table has the 13 columns in the
    order of [FEATURES + [TARGET]], and the two selections of lines 26-27
    take the first twelve cells and the last one of each complete row. *)
Lemma load_Xy_unfold (df : Train.DataFrame) (selected : Train.DataFrame) :
  Train.getitem_list (FEATURES ++ [Train.TARGET]) df = Train.Ok selected ->
  Train.load_Xy df =
  Train.Ok
    (map (fun r => map (fun i => Train.cell_at i r) (seq 0 12))
       (Train.rows (Train.dropna selected)),
     map (Train.cell_at 12) (Train.rows (Train.dropna selected))).
Proof.
  intros Hsel. unfold Train.load_Xy. rewrite Hsel.
  assert (Hcols : Train.columns (Train.dropna selected) = FEATURES ++ [Train.TARGET]).
  { unfold Train.getitem_list in Hsel.
    destruct (filter _ _); [|discriminate].
    injection Hsel as <-. reflexivity. }
  unfold Train.getitem_list, Train.getitem. rewrite Hcols.
  reflexivity.
Qed.

Lemma selected_rows (df selected : Train.DataFrame) :
  Train.getitem_list (FEATURES ++ [Train.TARGET]) df = Train.Ok selected ->
  Forall (fun r => List.length r = 13%nat) (Train.rows selected).
Proof.
  unfold Train.getitem_list. destruct (filter _ _); [|discriminate].
  intros [= <-]. simpl Train.rows. apply Forall_forall. intros r Hr.
  apply in_map_iff in Hr. destruct Hr as (r0 & <- & _).
  reflexivity.
Qed.

(** X15: when the table has the thirteen columns, [X] and [y] have one
    entry per patient without a missing value among them, in the order of
    the file: every row of [X] has 12 cells, none of them a NaN, and no
    label is a NaN. *)
Theorem load_Xy_shapes (df : Train.DataFrame) (Xm : list (list float))
    (y : list float) :
  Train.load_Xy df = Train.Ok (Xm, y) ->
  List.length Xm = List.length y /\
  Forall (fun r => List.length r = 12%nat /\ existsb is_nan r = false) Xm /\
  existsb is_nan y = false.
Proof.
  intros Hload.
  destruct (Train.getitem_list (FEATURES ++ [Train.TARGET]) df) as [selected|e] eqn:Hsel;
    [|unfold Train.load_Xy in Hload; rewrite Hsel in Hload; discriminate].
  rewrite (load_Xy_unfold df selected Hsel) in Hload.
  injection Hload as <- <-.
  pose proof (selected_rows df selected Hsel) as Hlen.
  assert (Hrows : Forall (fun r => List.length r = 13%nat /\ existsb is_nan r = false)
                    (Train.rows (Train.dropna selected))).
  { apply Forall_forall. intros r Hr. simpl in Hr. apply filter_In in Hr.
    destruct Hr as [Hin Hnan]. rewrite Forall_forall in Hlen.
    split; [apply Hlen; exact Hin|]. apply negb_true_iff. exact Hnan. }
  clear Hlen Hsel.
  change (Train.rows (Train.dropna selected))
    with (filter (fun r => negb (existsb is_nan r)) (Train.rows selected)) in Hrows.
  generalize dependent (filter (fun r => negb (existsb is_nan r)) (Train.rows selected)).
  intros rows' Hrows.
  induction Hrows as [|r rs [Hr Hnan] _ IH].
  - repeat split; constructor.
  - destruct IH as (IH1 & IH2 & IH3).
    do 14 (destruct r as [|? r]; try discriminate Hr).
    simpl in Hnan. repeat (apply orb_false_iff in Hnan; destruct Hnan as [? Hnan]).
    split; [simpl; rewrite IH1; reflexivity|]. split.
    + constructor; [|exact IH2]. split; [reflexivity|].
      cbn. repeat (apply orb_false_iff; split; try assumption).
    + cbn [map existsb Train.cell_at nth]. apply orb_false_iff.
      split; [assumption|exact IH3].
Qed.

Lemma load_Xy_shapes_witness :
  exists Xm y,
    Train.load_Xy Train.sample = Train.Ok (Xm, y) /\
    List.length Xm = List.length y /\
    Forall (fun r => List.length r = 12%nat /\ existsb is_nan r = false) Xm /\
    existsb is_nan y = false.
Proof.
  eexists. eexists. split; [vm_compute; reflexivity|].
  apply (load_Xy_shapes Train.sample). vm_compute. reflexivity.
Defined.

(** X16: loading succeeds exactly when the table has the twelve feature
    columns and the target column; otherwise it raises [KeyError] with the
    missing ones among them, and nothing else can make it fail. *)
Theorem load_Xy_needs_columns (df : Train.DataFrame) :
  match Train.load_Xy df with
  | Train.Ok _ =>
      forall name, In name (FEATURES ++ [Train.TARGET]) ->
        In name (Train.columns df)
  | Train.Raise (Train.KeyError missing) =>
      missing <> [] /\
      forall name, In name missing <->
        In name (FEATURES ++ [Train.TARGET]) /\ ~ In name (Train.columns df)
  end.
Proof.
  destruct (Train.getitem_list (FEATURES ++ [Train.TARGET]) df) as [selected|e] eqn:Hsel.
  - rewrite (load_Xy_unfold df selected Hsel).
    unfold Train.getitem_list in Hsel.
    destruct (filter _ _) as [|m ms] eqn:Hf; [|discriminate].
    intros name Hin. apply has_column_In.
    destruct (Train.has_column (Train.columns df) name) eqn:Hc; [reflexivity|].
    assert (Hm : In name []).
    { rewrite <- Hf. apply filter_In. split; [exact Hin|]. rewrite Hc. reflexivity. }
    destruct Hm.
  - unfold Train.load_Xy. rewrite Hsel. destruct e as [missing].
    unfold Train.getitem_list in Hsel.
    destruct (filter _ _) as [|m ms] eqn:Hf; [discriminate|].
    injection Hsel as <-. split; [discriminate|].
    intros name. rewrite <- Hf, filter_In, negb_true_iff.
    rewrite <- (has_column_In (Train.columns df) name).
    destruct (Train.has_column (Train.columns df) name); intuition congruence.
Qed.

Lemma select_ext (cols cols' names : list string) :
  names <> [] ->
  forall rows rows' : list (list float),
  (forall name, In name names ->
     exists i i', Train.index_of name cols = Some i /\
       Train.index_of name cols' = Some i' /\
       map (Train.cell_at i) rows = map (Train.cell_at i') rows') ->
  map (fun r => map (fun name =>
         match Train.index_of name cols with
         | Some i => Train.cell_at i r
         | None => nan
         end) names) rows =
  map (fun r => map (fun name =>
         match Train.index_of name cols' with
         | Some i => Train.cell_at i r
         | None => nan
         end) names) rows'.
Proof.
  intros Hne rows. induction rows as [|r rs IH]; intros rows' Hcol.
  - destruct names as [|n ns]; [contradiction|].
    destruct (Hcol n (or_introl eq_refl)) as (i & i' & _ & _ & Hm).
    destruct rows'; [reflexivity|discriminate].
  - destruct rows' as [|r' rs'].
    + destruct names as [|n ns]; [contradiction|].
      destruct (Hcol n (or_introl eq_refl)) as (i & i' & _ & _ & Hm).
      discriminate.
    + simpl. f_equal.
      * apply map_ext_in. intros name Hin.
        destruct (Hcol name Hin) as (i & i' & Hi & Hi' & Hm).
        rewrite Hi, Hi'. simpl in Hm. injection Hm as Hhd _. exact Hhd.
      * apply IH. intros name Hin.
        destruct (Hcol name Hin) as (i & i' & Hi & Hi' & Hm).
        exists i, i'. simpl in Hm. injection Hm as _ Htl. repeat split; assumption.
Qed.

(** X17: [X] and [y] depend on the table through its thirteen named columns
    only: two tables whose columns of these names hold the same cells give
    the same [X] and [y] (or the same error), whatever the order of their
    columns and whatever other columns they have. *)
Theorem load_Xy_reads_named_columns (df df' : Train.DataFrame) :
  (forall name, In name (FEATURES ++ [Train.TARGET]) ->
     Train.column df name = Train.column df' name) ->
  Train.load_Xy df = Train.load_Xy df'.
Proof.
  intros Hcol.
  assert (Hhas : forall name, In name (FEATURES ++ [Train.TARGET]) ->
            negb (Train.has_column (Train.columns df) name) =
            negb (Train.has_column (Train.columns df') name)).
  { intros name Hin. specialize (Hcol name Hin).
    unfold Train.column, Train.has_column in *.
    destruct (Train.index_of name (Train.columns df)),
      (Train.index_of name (Train.columns df')); try discriminate; reflexivity. }
  unfold Train.load_Xy, Train.getitem_list at 1 3.
  rewrite (filter_ext_in _ _ _ Hhas).
  destruct (filter _ (FEATURES ++ [Train.TARGET])) as [|m ms] eqn:Hf;
    [|reflexivity].
  rewrite (select_ext (Train.columns df) (Train.columns df')
             (FEATURES ++ [Train.TARGET]) ltac:(discriminate)
             (Train.rows df) (Train.rows df')); [reflexivity|].
  intros name Hin. specialize (Hcol name Hin).
  assert (Hpresent : Train.has_column (Train.columns df') name = true).
  { destruct (Train.has_column (Train.columns df') name) eqn:Hc; [reflexivity|].
    assert (Hm : In name []).
    { rewrite <- Hf. apply filter_In. split; [exact Hin|]. rewrite Hc. reflexivity. }
    destruct Hm. }
  unfold Train.column, Train.has_column in *.
  destruct (Train.index_of name (Train.columns df')) as [i'|]; [|discriminate].
  destruct (Train.index_of name (Train.columns df)) as [i|]; [|discriminate].
  exists i, i'. injection Hcol as Hcol. repeat split. exact Hcol.
Qed.

Lemma load_Xy_reads_named_columns_witness :
  Train.load_Xy Train.sample = Train.load_Xy Train.sample_sorted.
Proof.
  apply load_Xy_reads_named_columns.
  intros name Hin. simpl in Hin.
  repeat (destruct Hin as [<-|Hin]; [reflexivity|]). destruct Hin.
Defined.

(** ** Rounding against a representable bound *)

Lemma fexp_64 (x : Z) : fexp prec emax x = Z.max (x - 53) (-1074).
Proof. reflexivity. Qed.

Lemma pow2_pos (a : Z) : 0 <= a -> 0 < 2 ^ a.
Proof. intros Ha. apply Z.pow_pos_nonneg; lia. Qed.

Lemma pow2_add (a b : Z) : 0 <= a -> 0 <= b -> 2 ^ (a + b) = 2 ^ a * 2 ^ b.
Proof. intros Ha Hb. apply Z.pow_add_r; assumption. Qed.

Lemma iter_xO_value (d m : positive) :
  Zpos (Pos.iter xO m d) = Zpos m * 2 ^ Zpos d.
Proof.
  induction d as [|d IH] using Pos.peano_ind.
  - simpl. lia.
  - rewrite Pos.iter_succ, Pos2Z.inj_xO, IH, Pos2Z.inj_succ, Z.pow_succ_r by lia.
    lia.
Qed.

Lemma iter_xO_digits (d m : positive) :
  Zpos (digits2_pos (Pos.iter xO m d)) = Zpos (digits2_pos m) + Zpos d.
Proof.
  induction d as [|d IH] using Pos.peano_ind.
  - simpl. lia.
  - rewrite Pos.iter_succ. simpl digits2_pos. rewrite Pos2Z.inj_succ, IH. lia.
Qed.

(** What [shl_align] returns: the same value on the lower exponent. *)
Lemma shl_align_spec (mx : positive) (ex ex' : Z) :
  snd (shl_align mx ex ex') = Z.min ex ex' /\
  Zpos (fst (shl_align mx ex ex')) = Zpos mx * 2 ^ (ex - Z.min ex ex') /\
  Zpos (digits2_pos (fst (shl_align mx ex ex'))) + snd (shl_align mx ex ex') =
  Zpos (digits2_pos mx) + ex.
Proof.
  unfold shl_align. destruct (ex' - ex) as [|d|d] eqn:Hd; simpl fst; simpl snd.
  - replace (Z.min ex ex') with ex by lia. rewrite Z.sub_diag. simpl. lia.
  - replace (Z.min ex ex') with ex by lia. rewrite Z.sub_diag. simpl. lia.
  - replace (Z.min ex ex') with ex' by lia.
    rewrite iter_xO_value, iter_xO_digits.
    replace (ex - ex') with (Zpos d) by lia. lia.
Qed.

(** Digits of a value below another: if [M * 2^E < mc * 2^ec] then [M]
    has no more digits above the binary point than [mc]. *)
Lemma digits_le_of_lt (M mc : positive) (E ec t : Z) :
  t <= E -> t <= ec ->
  Zpos M * 2 ^ (E - t) < Zpos mc * 2 ^ (ec - t) ->
  Zpos (digits2_pos M) + E <= Zpos (digits2_pos mc) + ec.
Proof.
  intros HtE Htc Hlt.
  pose proof (digits2_pos_bounds M) as [HM _].
  pose proof (digits2_pos_bounds mc) as [_ Hc].
  assert (H : 2 ^ (Zpos (digits2_pos M) - 1 + (E - t)) <
              2 ^ (Zpos (digits2_pos mc) + (ec - t))).
  { rewrite !pow2_add by lia.
    pose proof (pow2_pos (E - t)). pose proof (pow2_pos (ec - t)). nia. }
  apply Z.pow_lt_mono_r_iff in H; lia.
Qed.

Lemma digits_le_of_le (M mc : positive) (E ec t : Z) :
  t <= E -> t <= ec ->
  Zpos mc * 2 ^ (ec - t) <= Zpos M * 2 ^ (E - t) ->
  Zpos (digits2_pos mc) + ec <= Zpos (digits2_pos M) + E.
Proof.
  intros HtE Htc Hle.
  pose proof (digits2_pos_bounds M) as [_ HM].
  pose proof (digits2_pos_bounds mc) as [Hc _].
  assert (H : 2 ^ (Zpos (digits2_pos mc) - 1 + (ec - t)) <
              2 ^ (Zpos (digits2_pos M) + (E - t))).
  { rewrite !pow2_add by lia.
    pose proof (pow2_pos (E - t)). pose proof (pow2_pos (ec - t)). nia. }
  apply Z.pow_lt_mono_r_iff in H; lia.
Qed.

(** Rounding a value strictly below a representable [mc * 2^ec] gives a
    value that is not above it. *)
Lemma binary_round_aux_upper (s : bool) (M mc : positive) (E ec t : Z) :
  fexp prec emax (Zpos (digits2_pos mc) + ec) = ec ->
  ec <= emax - prec ->
  E <= fexp prec emax (Zpos (digits2_pos M) + E) ->
  t <= E -> t <= ec ->
  Zpos M * 2 ^ (E - t) < Zpos mc * 2 ^ (ec - t) ->
  binary_round_aux prec emax s (Zpos M) E loc_Exact = S754_zero s \/
  exists m e,
    binary_round_aux prec emax s (Zpos M) E loc_Exact = S754_finite s m e /\
    (e < ec \/ (e = ec /\ Zpos m <= Zpos mc)).
Proof.
  intros Hcan Hec HE HtE Htc Hlt.
  pose proof (digits_le_of_lt M mc E ec t HtE Htc Hlt) as Hdig.
  pose proof (digits2_pos_bounds mc) as [_ Hmc].
  unfold binary_round_aux.
  destruct (shr_fexp_m (Zpos M) E loc_Exact) as (k & Hk & He1 & He1' & Hm1); [lia|].
  destruct (shr_fexp prec emax (Zpos M) E loc_Exact) as [mrs1 e1].
  simpl fst in *; simpl snd in *.
  change (Zdigits2 (Zpos M)) with (Zpos (digits2_pos M)) in He1'.
  pose proof (round_nearest_even_bounds (shr_m mrs1) (loc_of_shr_record mrs1)) as Hr.
  set (r := round_nearest_even (shr_m mrs1) (loc_of_shr_record mrs1)) in *.
  rewrite fexp_64 in *.
  assert (He1c : e1 <= ec) by lia.
  assert (HltE : Zpos M < Zpos mc * 2 ^ (ec - E)).
  { replace (ec - t) with ((ec - E) + (E - t)) in Hlt by lia.
    rewrite pow2_add in Hlt by lia.
    pose proof (pow2_pos (E - t)). pose proof (pow2_pos (ec - E)). nia. }
  assert (Hq : 0 <= shr_m mrs1 < Zpos mc * 2 ^ (ec - e1)).
  { rewrite Hm1. split; [apply Z.div_pos; [lia|apply pow2_pos; lia]|].
    apply Z.div_lt_upper_bound; [apply pow2_pos; lia|].
    replace (ec - E) with (k + (ec - e1)) in HltE by lia.
    rewrite pow2_add in HltE by lia. lia. }
  assert (Hrle : 0 <= r <= Zpos mc * 2 ^ (ec - e1)) by lia.
  destruct (shr_fexp_m r e1 loc_Exact) as (k2 & Hk2 & He2 & He2' & Hm2); [lia|].
  destruct (shr_fexp prec emax r e1 loc_Exact) as [mrs2 e2].
  simpl fst in *; simpl snd in *.
  assert (Hdr : Zdigits2 r <= Zpos (digits2_pos mc) + (ec - e1)).
  { apply Zdigits2_le; try lia.
    rewrite pow2_add by lia. pose proof (pow2_pos (ec - e1)). nia. }
  rewrite fexp_64 in He2'.
  assert (He2c : e2 <= ec) by lia.
  assert (Hm2b : 0 <= shr_m mrs2 <= Zpos mc * 2 ^ (ec - e2)).
  { rewrite Hm2. split; [apply Z.div_pos; [lia|apply pow2_pos; lia]|].
    apply Z.div_le_upper_bound; [apply pow2_pos; lia|].
    replace (ec - e1) with (k2 + (ec - e2)) in Hrle by lia.
    rewrite pow2_add in Hrle by lia. lia. }
  destruct (shr_m mrs2) as [|m2|m2] eqn:Hm2e; [left; reflexivity| |lia].
  right. exists m2, e2.
  replace (e2 <=? emax - prec) with true by (symmetry; apply Z.leb_le; lia).
  split; [reflexivity|].
  destruct (Z.eq_dec e2 ec) as [Heq|Hne]; [right|left; lia].
  split; [exact Heq|]. rewrite Heq, Z.sub_diag in Hm2b. simpl in Hm2b. lia.
Qed.

(** Rounding a value that is not below a representable [mc * 2^ec] gives a
    value that is not below it. *)
Lemma binary_round_aux_lower (s : bool) (M mc : positive) (E ec t : Z) :
  fexp prec emax (Zpos (digits2_pos mc) + ec) = ec ->
  E <= fexp prec emax (Zpos (digits2_pos M) + E) ->
  t <= E -> t <= ec ->
  Zpos mc * 2 ^ (ec - t) <= Zpos M * 2 ^ (E - t) ->
  binary_round_aux prec emax s (Zpos M) E loc_Exact = S754_infinity s \/
  exists m e,
    binary_round_aux prec emax s (Zpos M) E loc_Exact = S754_finite s m e /\
    (ec < e \/ (e = ec /\ Zpos mc <= Zpos m)).
Proof.
  intros Hcan HE HtE Htc Hle.
  pose proof (digits_le_of_le M mc E ec t HtE Htc Hle) as Hdig.
  pose proof (digits2_pos_bounds M) as [HMlo _].
  unfold binary_round_aux.
  destruct (shr_fexp_m (Zpos M) E loc_Exact) as (k & Hk & He1 & He1' & Hm1); [lia|].
  destruct (shr_fexp prec emax (Zpos M) E loc_Exact) as [mrs1 e1].
  simpl fst in *; simpl snd in *.
  change (Zdigits2 (Zpos M)) with (Zpos (digits2_pos M)) in He1'.
  pose proof (round_nearest_even_bounds (shr_m mrs1) (loc_of_shr_record mrs1)) as Hr.
  set (r := round_nearest_even (shr_m mrs1) (loc_of_shr_record mrs1)) in *.
  rewrite fexp_64 in *.
  assert (He1c : ec <= e1) by lia.
  assert (Hq : (e1 = ec /\ Zpos mc <= shr_m mrs1) \/
               (ec < e1 /\ 2 ^ 52 <= shr_m mrs1)).
  { destruct (Z.eq_dec e1 ec) as [Heq|Hne]; [left|right]; (split; [lia|]).
    - rewrite Hm1. apply Z.div_le_lower_bound; [apply pow2_pos; lia|].
      replace (ec - t) with (k + (E - t)) in Hle by lia.
      rewrite pow2_add in Hle by lia.
      apply (Z.mul_le_mono_pos_r _ _ (2 ^ (E - t))); [apply pow2_pos; lia|].
      lia.
    - rewrite Hm1. apply Z.div_le_lower_bound; [apply pow2_pos; lia|].
      replace (Zpos (digits2_pos M) - 1) with (k + 52) in HMlo by lia.
      rewrite pow2_add in HMlo by lia. lia. }
  assert (H52 : 0 < 2 ^ 52) by (apply pow2_pos; lia).
  assert (Hrpos : 0 < r) by lia.
  destruct (shr_fexp_m r e1 loc_Exact) as (k2 & Hk2 & He2 & He2' & Hm2); [lia|].
  destruct (shr_fexp prec emax r e1 loc_Exact) as [mrs2 e2].
  simpl fst in *; simpl snd in *.
  rewrite fexp_64 in He2'.
  assert (Hm2b : 0 < shr_m mrs2 /\ (ec < e2 \/ (e2 = ec /\ Zpos mc <= shr_m mrs2))).
  { destruct (Z.eq_dec k2 0) as [Hk0|Hk0].
    - assert (Hm2r : shr_m mrs2 = r) by (rewrite Hm2, Hk0, Z.div_1_r; reflexivity).
      rewrite Hm2r. split; [lia|]. lia.
    - destruct r as [|pr|pr]; try lia.
      change (Zdigits2 (Zpos pr)) with (Zpos (digits2_pos pr)) in He2'.
      pose proof (digits2_pos_bounds pr) as [Hrlo _].
      assert (Hk2e : k2 = Zpos (digits2_pos pr) - 53) by lia.
      assert (Hm52 : 2 ^ 52 <= shr_m mrs2).
      { rewrite Hm2. apply Z.div_le_lower_bound; [apply pow2_pos; lia|].
        replace (Zpos (digits2_pos pr) - 1) with (k2 + 52) in Hrlo by lia.
        rewrite pow2_add in Hrlo by lia. lia. }
      split; [lia|]. left. lia. }
  destruct Hm2b as [Hm2pos Hm2c].
  destruct (shr_m mrs2) as [|m2|m2] eqn:Hm2e; try lia.
  destruct (e2 <=? emax - prec); [right|left; reflexivity].
  exists m2, e2. split; [reflexivity|exact Hm2c].
Qed.

Lemma binary_round_upper (s : bool) (M mc : positive) (E ec t : Z) :
  fexp prec emax (Zpos (digits2_pos mc) + ec) = ec ->
  ec <= emax - prec ->
  t <= E -> t <= ec ->
  Zpos M * 2 ^ (E - t) < Zpos mc * 2 ^ (ec - t) ->
  binary_round prec emax s M E = S754_zero s \/
  exists m e,
    binary_round prec emax s M E = S754_finite s m e /\
    (e < ec \/ (e = ec /\ Zpos m <= Zpos mc)).
Proof.
  intros Hcan Hec HtE Htc Hlt. unfold binary_round.
  pose proof (shl_align_spec M E (fexp prec emax (Zpos (digits2_pos M) + E)))
    as (Hez & Hmz & Hdz).
  destruct (shl_align M E (fexp prec emax (Zpos (digits2_pos M) + E))) as [mz ez].
  simpl fst in *; simpl snd in *.
  apply (binary_round_aux_upper s mz mc ez ec (Z.min t ez)); try assumption; try lia.
  - rewrite Hdz. lia.
  - rewrite Hmz, <- Hez.
    replace (Zpos M * 2 ^ (E - ez) * 2 ^ (ez - Z.min t ez))
      with (Zpos M * 2 ^ (E - t) * 2 ^ (t - Z.min t ez)).
    + replace (ec - Z.min t ez) with ((ec - t) + (t - Z.min t ez)) by lia.
      rewrite pow2_add by lia. rewrite Z.mul_assoc.
      apply Z.mul_lt_mono_pos_r; [apply pow2_pos; lia|exact Hlt].
    + rewrite <- !Z.mul_assoc, <- !pow2_add by lia. do 2 f_equal. lia.
Qed.

Lemma binary_round_lower (s : bool) (M mc : positive) (E ec t : Z) :
  fexp prec emax (Zpos (digits2_pos mc) + ec) = ec ->
  t <= E -> t <= ec ->
  Zpos mc * 2 ^ (ec - t) <= Zpos M * 2 ^ (E - t) ->
  binary_round prec emax s M E = S754_infinity s \/
  exists m e,
    binary_round prec emax s M E = S754_finite s m e /\
    (ec < e \/ (e = ec /\ Zpos mc <= Zpos m)).
Proof.
  intros Hcan HtE Htc Hle. unfold binary_round.
  pose proof (shl_align_spec M E (fexp prec emax (Zpos (digits2_pos M) + E)))
    as (Hez & Hmz & Hdz).
  destruct (shl_align M E (fexp prec emax (Zpos (digits2_pos M) + E))) as [mz ez].
  simpl fst in *; simpl snd in *.
  apply (binary_round_aux_lower s mz mc ez ec (Z.min t ez)); try assumption; try lia.
  - rewrite Hdz. lia.
  - rewrite Hmz, <- Hez.
    replace (Zpos M * 2 ^ (E - ez) * 2 ^ (ez - Z.min t ez))
      with (Zpos M * 2 ^ (E - t) * 2 ^ (t - Z.min t ez)).
    + replace (ec - Z.min t ez) with ((ec - t) + (t - Z.min t ez)) by lia.
      rewrite pow2_add by lia. rewrite Z.mul_assoc.
      apply Z.mul_le_mono_nonneg_r; [apply Z.lt_le_incl, pow2_pos; lia|exact Hle].
    + rewrite <- !Z.mul_assoc, <- !pow2_add by lia. do 2 f_equal. lia.
Qed.

Lemma SFltb_finite_pos_iff (m1 m2 : positive) (e1 e2 : Z) :
  SFltb (S754_finite false m1 e1) (S754_finite false m2 e2) = true <->
  e1 < e2 \/ (e1 = e2 /\ Zpos m1 < Zpos m2).
Proof.
  unfold SFltb, SFcompare.
  change (Pos.compare_cont Eq m1 m2) with (Pos.compare m1 m2).
  destruct (Z.compare_spec e1 e2); [|intuition lia|intuition (try discriminate; lia)].
  destruct (Pos.compare_spec m1 m2); intuition (try discriminate; try lia).
Qed.

(** ** The confidence shown beside the probability *)


Lemma above_20 (s : bool) (R : spec_float) :
  (R = S754_infinity s \/
   exists m e, R = S754_finite s m e /\
     (-48 < e \/ (e = -48 /\ 5629499534213121 <= Zpos m))) ->
  SFltb SF20 (SFabs R) = true.
Proof.
  intros [->|(m & e & -> & H)]; [reflexivity|].
  simpl SFabs. unfold SF20. apply SFltb_finite_pos_iff. lia.
Qed.

Lemma not_above_20 (s : bool) (R : spec_float) :
  (R = S754_zero s \/
   exists m e, R = S754_finite s m e /\
     (e < -48 \/ (e = -48 /\ Zpos m <= 5629499534213120))) ->
  SFltb SF20 (SFabs R) = false.
Proof.
  intros [->|(m & e & -> & H)]; [reflexivity|].
  simpl SFabs. unfold SF20. apply Bool.not_true_iff_false.
  rewrite SFltb_finite_pos_iff. lia.
Qed.

Lemma canonical_succ_20 :
  fexp prec emax (Zpos (digits2_pos 5629499534213121) + -48) = -48.
Proof. vm_compute. reflexivity. Qed.

Lemma canonical_20 :
  fexp prec emax (Zpos (digits2_pos 5629499534213120) + -48) = -48.
Proof. vm_compute. reflexivity. Qed.

Lemma confidence_SF (m : positive) (e : Z) :
  SpecFloat.valid_binary prec emax (S754_finite false m e) = true ->
  SFleb (S754_finite false m e) SF100 = true ->
  SFltb SF20 (SFabs (SFsub prec emax (S754_finite false m e) SF50)) =
  SFltb (S754_finite false m e) SF30 || SFltb SF70 (S754_finite false m e).
Proof.
  intros Hv H100.
  apply valid_finite_digits in Hv.
  apply SFleb_finite_pos_inv in H100.
  pose proof (digits2_pos_bounds m) as [Hmlo Hmhi].
  assert (Hm53 : Zpos m < 2 ^ 53).
  { eapply Z.lt_le_trans; [exact Hmhi|]. apply Z.pow_le_mono_r; lia. }
  change (2 ^ 53) with 9007199254740992 in Hm53.
  unfold SFsub, SF50.
  set (ez := Z.min e (-47)).
  pose proof (shl_align_spec m e ez) as (_ & HA & _).
  pose proof (shl_align_spec 7036874417766400 (-47) ez) as (_ & HB & _).
  set (A := fst (shl_align m e ez)) in *.
  set (B := fst (shl_align 7036874417766400 (-47) ez)) in *.
  replace (Z.min e ez) with ez in HA by (unfold ez; lia).
  replace (Z.min (-47) ez) with ez in HB by (unfold ez; lia).
  unfold cond_Zopp.
  destruct (SFltb (S754_finite false m e) SF30) eqn:H30.
  - (* below 30 *)
    apply SFltb_finite_pos_iff in H30. simpl orb.
    assert (He : e <= -48) by lia.
    assert (Hez : ez = e) by (unfold ez; lia).
    rewrite Hez, Z.sub_diag, Z.mul_1_r in HA.
    rewrite Hez in HB.
    assert (Hj : exists j, 0 <= j /\ -47 - e = j + 1) by (exists (-48 - e); lia).
    destruct Hj as (j & Hj0 & Hj). rewrite Hj, pow2_add, Z.pow_1_r in HB by lia.
    assert (H2j : 1 <= 2 ^ j) by (pose proof (pow2_pos j Hj0); lia).
    assert (Hlow : 5629499534213121 * 2 ^ j <= Zpos B - Zpos A).
    { rewrite HA, HB. destruct (Z.eq_dec j 0) as [->|Hj1].
      - rewrite Z.pow_0_r. lia.
      - assert (2 <= 2 ^ j).
        { replace j with (1 + (j - 1)) by lia. rewrite pow2_add by lia.
          pose proof (pow2_pos (j - 1)). lia. }
        nia. }
    destruct (Zpos A - Zpos B) as [|pd|pd] eqn:HD; try lia.
    unfold binary_normalize. rewrite Hez.
    apply (above_20 true).
    apply (binary_round_lower true pd 5629499534213121 e (-48) e);
      [exact canonical_succ_20|lia|lia|].
    rewrite Z.sub_diag, Z.mul_1_r.
    replace (-48 - e) with j by lia. lia.
  - rewrite <- Bool.not_true_iff_false in H30.
    unfold SF30 in H30. rewrite SFltb_finite_pos_iff in H30.
    destruct (SFltb SF70 (S754_finite false m e)) eqn:H70.
    + (* above 70 *)
      unfold SF70 in H70. apply SFltb_finite_pos_iff in H70. simpl orb.
      unfold SF100 in H100.
      assert (He : e = -46) by lia.
      assert (Hez : ez = -47) by (unfold ez; lia).
      rewrite Hez, He in HA. rewrite Hez in HB.
      change (2 ^ (-46 - -47)) with 2 in HA. change (2 ^ (-47 - -47)) with 1 in HB.
      destruct (Zpos A - Zpos B) as [|pd|pd] eqn:HD; try lia.
      unfold binary_normalize. rewrite Hez.
      apply (above_20 false).
      apply (binary_round_lower false pd 5629499534213121 (-47) (-48) (-48));
        [exact canonical_succ_20|lia|lia|].
      change (2 ^ (-48 - -48)) with 1. change (2 ^ (-47 - -48)) with 2. lia.
    + (* between 30 and 70 *)
      rewrite <- Bool.not_true_iff_false in H70.
      unfold SF70 in H70. rewrite SFltb_finite_pos_iff in H70. simpl orb.
      unfold SF100 in H100.
      assert (He : -48 <= e <= -46) by lia.
      assert (Hd : Zpos (digits2_pos m) = 53) by lia.
      rewrite Hd in Hmlo. change (2 ^ (53 - 1)) with 4503599627370496 in Hmlo.
      destruct (Z.eq_dec e (-48)) as [He48|He48];
        [|destruct (Z.eq_dec e (-47)) as [He47|He47]].
      * (* from 30 to 32 *)
        destruct (Z.eq_dec (Zpos m) 8444249301319680) as [Hm30|Hm30].
        { clear - Hm30 He48. injection Hm30 as ->. subst e.
          vm_compute. reflexivity. }
        assert (Hez : ez = -48) by (unfold ez; lia).
        rewrite Hez, He48 in HA. rewrite Hez in HB.
        change (2 ^ (-48 - -48)) with 1 in HA. change (2 ^ (-47 - -48)) with 2 in HB.
        destruct (Zpos A - Zpos B) as [|pd|pd] eqn:HD; try lia.
        unfold binary_normalize. rewrite Hez.
        apply (not_above_20 true).
        apply (binary_round_upper true pd 5629499534213120 (-48) (-48) (-48));
          [exact canonical_20|unfold emax, prec; lia|lia|lia|].
        rewrite Z.sub_diag, !Z.mul_1_r. lia.
      * (* from 32 to 64 *)
        assert (Hez : ez = -47) by (unfold ez; lia).
        rewrite Hez, He47 in HA. rewrite Hez in HB.
        change (2 ^ (-47 - -47)) with 1 in HA, HB.
        unfold binary_normalize. rewrite Hez.
        destruct (Zpos A - Zpos B) as [|pd|pd] eqn:HD.
        { apply (not_above_20 false). left. reflexivity. }
        { apply (not_above_20 false).
          apply (binary_round_upper false pd 5629499534213120 (-47) (-48) (-48));
            [exact canonical_20|unfold emax, prec; lia|lia|lia|].
          change (2 ^ (-48 - -48)) with 1. change (2 ^ (-47 - -48)) with 2. lia. }
        { apply (not_above_20 true).
          apply (binary_round_upper true pd 5629499534213120 (-47) (-48) (-48));
            [exact canonical_20|unfold emax, prec; lia|lia|lia|].
          change (2 ^ (-48 - -48)) with 1. change (2 ^ (-47 - -48)) with 2. lia. }
      * (* from 64 to 70 *)
        assert (He46 : e = -46) by lia.
        destruct (Z.eq_dec (Zpos m) 4925812092436480) as [Hm70|Hm70].
        { clear - Hm70 He46. injection Hm70 as ->. subst e.
          vm_compute. reflexivity. }
        assert (Hez : ez = -47) by (unfold ez; lia).
        rewrite Hez, He46 in HA. rewrite Hez in HB.
        change (2 ^ (-46 - -47)) with 2 in HA. change (2 ^ (-47 - -47)) with 1 in HB.
        destruct (Zpos A - Zpos B) as [|pd|pd] eqn:HD; try lia.
        unfold binary_normalize. rewrite Hez.
        apply (not_above_20 false).
        apply (binary_round_upper false pd 5629499534213120 (-47) (-48) (-48));
          [exact canonical_20|unfold emax, prec; lia|lia|lia|].
        change (2 ^ (-48 - -48)) with 1. change (2 ^ (-47 - -48)) with 2. lia.
Qed.


Lemma Prim2SF_30 : Prim2SF 30 = SF30.
Proof. vm_compute. reflexivity. Qed.

Lemma Prim2SF_70 : Prim2SF 70 = SF70.
Proof. vm_compute. reflexivity. Qed.

Lemma confidence_aux (p : float) :
  (0 <=? p)%float = true -> (p <=? 100)%float = true ->
  (20 <? abs (p - 50))%float = (p <? 30)%float || (70 <? p)%float.
Proof.
  intros H0 H100.
  rewrite leb_spec, Prim2SF_0 in H0. rewrite leb_spec, Prim2SF_100 in H100.
  rewrite !ltb_spec, abs_spec, sub_spec.
  rewrite Prim2SF_20, Prim2SF_50, Prim2SF_30, Prim2SF_70.
  fold SF20 SF50.
  pose proof (Prim2SF_valid p) as Hv.
  destruct (Prim2SF p) as [s|s| |s m e].
  - destruct s; reflexivity.
  - destruct s; discriminate.
  - discriminate.
  - destruct s; [discriminate|].
    apply (confidence_SF m e Hv H100).
Qed.

(** X18: for a percentage between 0 and 100 the confidence shown is "High"
    exactly when the percentage is below 30 or above 70, the rounding of
    [prob - 50] included. *)
Theorem confidence_iff (p : float) :
  (0 <=? p)%float = true -> (p <=? 100)%float = true ->
  (confidence p = "High"%string <->
   (p <? 30)%float || (70 <? p)%float = true).
Proof.
  intros H0 H100. unfold confidence.
  rewrite (confidence_aux p H0 H100).
  destruct ((p <? 30)%float || (70 <? p)%float); split; intros H;
    try reflexivity; discriminate.
Qed.

Lemma confidence_iff_witness :
  confidence 10 = "High"%string <->
  (10 <? 30)%float || (70 <? 10)%float = true.
Proof. apply (confidence_iff 10); vm_compute; reflexivity. Defined.

(** X19: a percentage between 0 and 100 that the page puts in its Low tier
    is shown with confidence "High", and one shown with confidence
    "Moderate" lies from 30 to 70. *)
Theorem low_tier_high_confidence (p : float) :
  (0 <=? p)%float = true -> (p <=? 100)%float = true ->
  (display_tier p = Low -> confidence p = "High"%string) /\
  (confidence p = "Moderate"%string ->
   (p <? 30)%float = false /\ (70 <? p)%float = false).
Proof.
  intros H0 H100. unfold confidence, display_tier.
  rewrite (confidence_aux p H0 H100). split.
  - destruct (p <? 20)%float eqn:H20.
    + intros _.
      assert (H30 : (p <? 30)%float = true).
      { apply (ltb_leb_trans p 20 30 H20). vm_compute. reflexivity. }
      rewrite H30. reflexivity.
    + destruct (p <? 50)%float; discriminate.
  - destruct (p <? 30)%float, (70 <? p)%float; simpl; intros H;
      try discriminate; split; reflexivity.
Qed.

Lemma low_tier_high_confidence_witness :
  (display_tier 10 = Low -> confidence 10 = "High"%string) /\
  (confidence 10 = "Moderate"%string ->
   (10 <? 30)%float = false /\ (70 <? 10)%float = false).
Proof. apply (low_tier_high_confidence 10); vm_compute; reflexivity. Defined.

(** ** The row the model receives *)

Lemma standardize_row_length : forall row means scales : list float,
  List.length row = List.length means -> List.length row = List.length scales ->
  List.length (standardize_row row means scales) = List.length row.
Proof.
  induction row as [|x row IH]; intros [|m means] [|s scales]; simpl;
    try discriminate; try reflexivity.
  intros [= Hm] [= Hs]. rewrite IH by assumption. reflexivity.
Qed.

(** X20: with a [StandardScaler], whenever the scoring step returns, the
    row the model was called with has as many entries as the row built
    from the form, and that row held no infinity. *)
Theorem scored_row_width {M : Type} `{Classifier M} (sc : StandardScaler)
    (model : M) (x : list float) (s : Scored) :
  score sc model x = Ok s ->
  List.length (X_scaled s) = List.length x /\
  existsb is_infinity x = false.
Proof.
  intros Hs. apply score_passes_row in Hs. destruct Hs as [Ht _].
  simpl in Ht. unfold StandardScaler_transform in Ht.
  destruct (Nat.eqb_spec (List.length x) (List.length (mean_ sc))) as [Hm|];
    [|discriminate].
  destruct (Nat.eqb_spec (List.length x) (List.length (scale_ sc))) as [Hsc|];
    [|discriminate].
  destruct (existsb is_infinity x); [discriminate|].
  simpl in Ht. injection Ht as <-.
  split; [apply standardize_row_length; assumption|reflexivity].
Qed.

Lemma scored_row_width_witness :
  List.length
    (X_scaled {| X_scaled := X default_form 24%float; prediction := 0;
                 prob := 50%float |}) =
  List.length (X default_form 24%float) /\
  existsb is_infinity (X default_form 24%float) = false.
Proof.
  apply (scored_row_width unit_scaler coin_model (X default_form 24%float)).
  vm_compute. reflexivity.
Defined.

(** ** The order of the row, in the application and at the fit *)

Lemma FEATURES_index (i : nat) (name : string) :
  nth_error FEATURES i = Some name ->
  Train.index_of name (FEATURES ++ [Train.TARGET]) = Some i /\ (i < 12)%nat.
Proof.
  intros Hn.
  do 12 (destruct i as [|i]; [injection Hn as <-; split; [reflexivity|lia]|]).
  destruct i; discriminate.
Qed.

(** The i-th column of the matrix the scaler and the model are fitted on is
    the column of the cleaned table named by the i-th entry of
    [FEATURES]. *)
Lemma load_Xy_columns (df : Train.DataFrame) (Xm : list (list float))
    (y : list float) :
  Train.load_Xy df = Train.Ok (Xm, y) ->
  exists selected,
    Train.getitem_list (FEATURES ++ [Train.TARGET]) df = Train.Ok selected /\
    forall i name, nth_error FEATURES i = Some name ->
      Train.column (Train.dropna selected) name =
      Some (map (Train.cell_at i) Xm).
Proof.
  intros Hload.
  destruct (Train.getitem_list (FEATURES ++ [Train.TARGET]) df) as [selected|e] eqn:Hsel;
    [|unfold Train.load_Xy in Hload; rewrite Hsel in Hload; discriminate].
  exists selected. split; [reflexivity|]. intros i name Hn.
  rewrite (load_Xy_unfold df selected Hsel) in Hload.
  injection Hload as <- _.
  assert (Hcols : Train.columns (Train.dropna selected) = FEATURES ++ [Train.TARGET]).
  { unfold Train.getitem_list in Hsel.
    destruct (filter _ _); [|discriminate].
    injection Hsel as <-. reflexivity. }
  destruct (FEATURES_index i name Hn) as [Hidx Hi].
  unfold Train.column. rewrite Hcols, Hidx. simpl option_map. f_equal.
  rewrite map_map. apply map_ext. intros r.
  unfold Train.cell_at at 1.
  do 12 (destruct i as [|i]; [reflexivity|]). lia.
Qed.

(** C6: in every run, once the BMI is computed, the row handed to the
    scaler's [transform] is the row of lines 425-427: it has 12 entries, as
    many as [FEATURES], and its i-th entry is the form's value for the i-th
    name of [FEATURES]; the model's two calls receive the scaler's answer.
    The [StandardScaler] answers with one entry per entry of the row, the
    i-th made from the i-th entry with the i-th mean and scale.  At the
    fit, the i-th column of the matrix is the column of the table with the
    i-th name of [FEATURES]. *)
Theorem row_follows_FEATURES :
  (forall (S M : Type) (HS : Scaler S) (HM : Classifier M)
          (scaler : S) (model : M) (now : string) (f : Form)
          (history : list HistoryEntry),
     match BMI (height f) (weight f) with
     | Raise e => submit scaler model now f history = Raise e
     | Ok bmi =>
         List.length (X f bmi) = 12%nat /\
         List.length FEATURES = 12%nat /\
         map (column_value f bmi) FEATURES = map Some (X f bmi) /\
         submit scaler model now f history =
           (xs <- transform scaler (X f bmi) ;;
            label <- predict model xs ;;
            row <- predict_proba model xs ;;
            Ok (report now f history (snd row * 100)%float))
     end) /\
  (forall (sc : StandardScaler) (x xs : list float),
     transform sc x = Ok xs ->
     List.length xs = List.length x /\
     forall i x_i mean_i scale_i,
       nth_error x i = Some x_i -> nth_error (mean_ sc) i = Some mean_i ->
       nth_error (scale_ sc) i = Some scale_i ->
       nth_error xs i = Some (standardize x_i mean_i scale_i)) /\
  (forall (df : Train.DataFrame) (Xm : list (list float)) (y : list float),
     Train.load_Xy df = Train.Ok (Xm, y) ->
     exists selected,
       Train.getitem_list (FEATURES ++ [Train.TARGET]) df = Train.Ok selected /\
       forall i name, nth_error FEATURES i = Some name ->
         Train.column (Train.dropna selected) name =
         Some (map (Train.cell_at i) Xm)).
Proof.
  split; [|split].
  - intros S M HS HM scaler model now f history.
    unfold submit, features.
    destruct (BMI (height f) (weight f)) as [bmi|e]; [|reflexivity].
    cbn [bind]. repeat split.
    unfold score.
    destruct (transform scaler (X f bmi)) as [xs|e]; [|reflexivity].
    cbn [bind].
    destruct (predict model xs) as [label|e]; [|reflexivity].
    cbn [bind].
    destruct (predict_proba model xs) as [row|e]; reflexivity.
  - intros sc x xs Ht. simpl in Ht. unfold StandardScaler_transform in Ht.
    destruct (Nat.eqb_spec (List.length x) (List.length (mean_ sc))) as [Hm|];
      [|discriminate].
    destruct (Nat.eqb_spec (List.length x) (List.length (scale_ sc))) as [Hs|];
      [|discriminate].
    simpl in Ht. destruct (existsb is_infinity x); [discriminate|].
    injection Ht as <-. split.
    + apply standardize_row_length; assumption.
    + intros i x_i mean_i scale_i. apply standardize_row_nth.
  - exact load_Xy_columns.
Qed.

Lemma row_follows_FEATURES_witness :
  (exists xs,
     transform sample_scaler (X default_form 24%float) = Ok xs /\
     nth_error xs 0 = Some (standardize 50 49.5 8.5)) /\
  (exists selected,
     Train.getitem_list (FEATURES ++ [Train.TARGET]) Train.sample
       = Train.Ok selected /\
     Train.column (Train.dropna selected) "age"
       = Some [39%float]).
Proof.
  destruct row_follows_FEATURES as (_ & Hscaler & Hfit). split.
  - eexists. split; [reflexivity|].
    refine (proj2 (Hscaler sample_scaler (X default_form 24%float) _ eq_refl)
              0%nat _ _ _ eq_refl eq_refl eq_refl).
  - destruct (Hfit Train.sample _ _ eq_refl) as (selected & Hsel & Hcol).
    exists selected. split; [exact Hsel|].
    exact (Hcol 0%nat "age"%string eq_refl).
Defined.
